(** * aws-mlflow-sagemaker-cdk: the notebook stack and the MLflow/SageMaker workflow

    A shallow embedding of [src/cdk/singleAccount/lib/sagemaker-notebook-instance.ts]:
    the CDK stack that declares the notebook instance and its execution role,
    and the cells of the notebook the instance runs (data preparation, training
    configuration, credential retrieval, run selection and model registration,
    prediction, deployment and teardown).

    The stack and the cells are glue: they call the CDK constructs, pandas,
    scikit-learn, boto3, MLflow and SageMaker.  Each of those is modelled by the
    part of its documented contract that the cells rely on, kept in a module of
    its own ([Py], [Pandas], [Sklearn], [Re], [Mlflow], [Aws], [SageMaker]);
    the repository's own code is in [Cdk] and [Notebook]. *)

From Stdlib Require Import ZArith QArith Qround String Ascii List Sorted Lia.
From stdpp Require Import base option list strings pretty gmap list_numbers.

Open Scope string_scope.
Open Scope list_scope.
Set Warnings "-register-all".

(** ** Python values the cells manipulate *)

Module Py.

(** The exceptions that reach the notebook. *)
Inductive exn : Type :=
| IndexError
| KeyError (key : string)
| TypeError
| AttributeError
| ValueError
| JSONDecodeError
| ClientError (code : string)        (* botocore.exceptions.ClientError *)
| MlflowException (error_code : string).

Inductive result (A : Type) : Type :=
| Ok (a : A)
| Raise (e : exn).
Arguments Ok {A} a.
Arguments Raise {A} e.

(** [l[0]] *)
Definition first {A} (l : list A) : result A :=
  match l with
  | x :: _ => Ok x
  | [] => Raise IndexError
  end.

(** The value of [json.loads]. *)
Inductive json : Type :=
| JNull
| JBool (b : bool)
| JNum (q : Q)
| JStr (s : string)
| JArr (l : list json)
| JObj (members : list (string * json)).

Fixpoint assoc {A} (k : string) (l : list (string * A)) : option A :=
  match l with
  | [] => None
  | (k', v) :: l' => if String.eqb k k' then Some v else assoc k l'
  end.

(** [v[key]] for a string key: a dict is looked up, anything else is not
    indexable by a string. *)
Definition getitem (v : json) (key : string) : result json :=
  match v with
  | JObj members =>
      match assoc key members with
      | Some x => Ok x
      | None => Raise (KeyError key)
      end
  | _ => Raise TypeError
  end.

(** Blanks, among the characters of ASCII: the space, the tab, line feed,
    vertical tab, form feed and carriage return, and the four separators
    from 28 to 31.  A string is the UTF-8 text of a Python [str]; the
    blanks beyond ASCII are sequences of bytes and are not split on here. *)
Definition is_space (c : ascii) : bool :=
  Ascii.eqb c " "
  || existsb (Ascii.eqb c)
       ["009"; "010"; "011"; "012"; "013"; "028"; "029"; "030"; "031"]%char.

(** [str.split()]: the maximal runs of non-blank characters. *)
Fixpoint split_aux (cur : string) (s : string) : list string :=
  match s with
  | EmptyString => if String.eqb cur "" then [] else [cur]
  | String c s' =>
      if is_space c
      then (if String.eqb cur "" then [] else [cur]) ++ split_aux "" s'
      else split_aux (cur +:+ String c "") s'
  end.
Definition split (s : string) : list string := split_aux "" s.

(** What follows the prefix [p] in [s], when [s] starts with it. *)
Fixpoint strip_prefix (p s : string) : option string :=
  match p, s with
  | EmptyString, _ => Some s
  | String a p', String b s' => if Ascii.eqb a b then strip_prefix p' s' else None
  | String _ _, EmptyString => None
  end.

(** [s.split(sep)] for a separator that is not empty: the pieces between
    the occurrences of [sep], read from the left.  [skip] counts the
    characters of an occurrence still to pass. *)
Fixpoint split_on_aux (sep : string) (skip : nat) (cur : string) (s : string) : list string :=
  match s with
  | EmptyString => [cur]
  | String c s' =>
      match skip with
      | S skip' => split_on_aux sep skip' cur s'
      | O =>
          match strip_prefix sep s with
          | Some _ => cur :: split_on_aux sep (String.length sep - 1) "" s'
          | None => split_on_aux sep 0 (cur +:+ String c "") s'
          end
      end
  end.
Definition split_on (sep s : string) : list string := split_on_aux sep 0 "" s.

(** [l[i]] and [l[-1]] *)
Definition item {A} (l : list A) (i : nat) : result A :=
  match l !! i with
  | Some x => Ok x
  | None => Raise IndexError
  end.
Definition last_item {A} (l : list A) : result A :=
  match last l with
  | Some x => Ok x
  | None => Raise IndexError
  end.

(** Every character of [s] satisfies [p]. *)
Fixpoint all_chars (p : ascii -> bool) (s : string) : bool :=
  match s with
  | EmptyString => true
  | String c s' => p c && all_chars p s'
  end.

End Py.
Export Py.

(** ** The CDK stack (lines 1-49) *)

Module Cdk.

Record Subnet := { subnetId : string }.

(** The part of [ec2.Vpc] the stack reads. *)
Record Vpc := {
  publicSubnets : list Subnet;
  vpcDefaultSecurityGroup : string
}.

Inductive Effect := ALLOW | DENY.

Record PolicyStatement := {
  effect : Effect;
  resources : list string;
  actions : list string
}.

Record PolicyDocument := { statements : list PolicyStatement }.

Inductive ManagedPolicy := fromAwsManagedPolicyName (name : string).

Inductive ServicePrincipal := Service (name : string).

(** A reference to an attribute of a construct of the stack, resolved at
    deployment. *)
Inductive Token := GetAtt (construct_id attribute : string).

Record Role := {
  role_id : string;
  assumedBy : ServicePrincipal;
  managedPolicies : list ManagedPolicy;
  inlinePolicies : list (string * PolicyDocument)
}.

Definition roleArn (r : Role) : Token := GetAtt (role_id r) "Arn".

Record CfnNotebookInstance := {
  notebook_id : string;
  nb_roleArn : Token;
  instanceType : string;
  volumeSizeInGb : Z;
  notebookInstanceName : string;
  defaultCodeRepository : string;
  nb_subnetId : string;
  securityGroupIds : list string
}.

(** The constructs a stack holds, in the order they were added to it. *)
Inductive Construct :=
| IamRole (r : Role)
| NotebookInstance (n : CfnNotebookInstance).

Definition Stack := list Construct.

Definition sagemakerExecutionRole : Role := {|
  role_id := "sagemaker-execution-role";
  assumedBy := Service "sagemaker.amazonaws.com";
  managedPolicies :=
    [ fromAwsManagedPolicyName "AmazonSageMakerFullAccess";
      fromAwsManagedPolicyName "AmazonEC2ContainerRegistryFullAccess" ];
  inlinePolicies :=
    [ ("s3Buckets",
       {| statements :=
            [ {| effect := ALLOW;
                 resources := ["*"];
                 actions := ["s3:ListBucket"; "s3:GetObject"; "s3:PutObject";
                             "s3:DeleteObject"; "s3:PutObjectTagging"] |} ] |}) ]
|}.

(** [vpc.publicSubnets[0].subnetId]: indexing past the end of a JS array
    gives [undefined], and reading a property of [undefined] throws. *)
Definition first_public_subnet_id (vpc : Vpc) : result string :=
  match publicSubnets vpc with
  | s :: _ => Ok (subnetId s)
  | [] => Raise TypeError
  end.

Definition notebook (vpc : Vpc) (subnet : string) : CfnNotebookInstance := {|
  notebook_id := "MlflowNotebook";
  nb_roleArn := roleArn sagemakerExecutionRole;
  instanceType := "ml.t3.large";
  volumeSizeInGb := 40;
  notebookInstanceName := "MLFlow-SageMaker-PrivateLink";
  defaultCodeRepository := "https://github.com/aws-samples/amazon-sagemaker-mlflow-fargate";
  nb_subnetId := subnet;
  securityGroupIds := [vpcDefaultSecurityGroup vpc]
|}.

(** The constructor of the stack: the role, then the notebook instance. *)
Definition SageMakerNotebookInstance (vpc : Vpc) : result Stack :=
  match first_public_subnet_id vpc with
  | Ok subnet => Ok [IamRole sagemakerExecutionRole; NotebookInstance (notebook vpc subnet)]
  | Raise e => Raise e
  end.

Definition roles (s : Stack) : list Role :=
  omap (fun c => match c with IamRole r => Some r | _ => None end) s.

Definition notebooks (s : Stack) : list CfnNotebookInstance :=
  omap (fun c => match c with NotebookInstance n => Some n | _ => None end) s.

(** The actions the inline policies of a role allow. *)
Definition allowed_actions (r : Role) : list string :=
  flat_map (fun p => flat_map (fun st => match effect st with
                                         | ALLOW => actions st
                                         | DENY => []
                                         end) (statements p.2))
           (inlinePolicies r).

End Cdk.

(** ** pandas: the data frames of the notebook *)

Module Pandas.

(** A frame: its column labels, its row labels and its rows. *)
Record DataFrame := {
  columns : list string;
  index : list nat;
  values : list (list Q)
}.

(** [pd.DataFrame(rows, columns=cols)]: every row has one value per column. *)
Definition DataFrame_of (rows : list (list Q)) (cols : list string) : result DataFrame :=
  if forallb (fun r => Nat.eqb (List.length r) (List.length cols)) rows
  then Ok {| columns := cols; index := seq 0 (List.length rows); values := rows |}
  else Raise ValueError.

Fixpoint position (col : string) (cols : list string) : option nat :=
  match cols with
  | [] => None
  | c :: cols' => if String.eqb c col then Some 0 else S <$> position col cols'
  end.

(** [df[col] = vals]: a new column goes last, an existing one is replaced. *)
Definition setitem (df : DataFrame) (col : string) (vals : list Q) : result DataFrame :=
  if negb (Nat.eqb (List.length vals) (List.length (values df))) then Raise ValueError
  else match position col (columns df) with
       | None =>
           Ok {| columns := columns df ++ [col]; index := index df;
                 values := zip_with (fun r v => r ++ [v]) (values df) vals |}
       | Some i =>
           Ok {| columns := columns df; index := index df;
                 values := zip_with (fun r v => <[i:=v]> r) (values df) vals |}
       end.

(** The entries of [l] whose mask is set. *)
Fixpoint select {A} (mask : list bool) (l : list A) : list A :=
  match mask, l with
  | b :: mask', x :: l' => if b then x :: select mask' l' else select mask' l'
  | _, _ => []
  end.

Definition mem (s : string) (l : list string) : bool := existsb (String.eqb s) l.

(** [df.drop(labels, axis=1)]: a label that is no column is a KeyError. *)
Definition drop (df : DataFrame) (labels : list string) : result DataFrame :=
  match find (fun l => negb (mem l (columns df))) labels with
  | Some l => Raise (KeyError l)
  | None =>
      let mask := map (fun c => negb (mem c labels)) (columns df) in
      Ok {| columns := select mask (columns df); index := index df;
            values := map (select mask) (values df) |}
  end.

(** [df.iloc[[i]]]: the one-row frame of position [i]. *)
Definition iloc (df : DataFrame) (i : nat) : result DataFrame :=
  match index df !! i, values df !! i with
  | Some lbl, Some row => Ok {| columns := columns df; index := [lbl]; values := [row] |}
  | _, _ => Raise IndexError
  end.

(** [df[[col]]] *)
Definition getcols (df : DataFrame) (cols : list string) : result DataFrame :=
  match find (fun l => negb (mem l (columns df))) cols with
  | Some l => Raise (KeyError l)
  | None =>
      let mask := map (fun c => mem c cols) (columns df) in
      Ok {| columns := select mask (columns df); index := index df;
            values := map (select mask) (values df) |}
  end.

(** [df.to_csv(path, index=False)]: the file holds the labels and, row by
    row, the text of every value (the shortest that denotes it, so a file
    is told by the values it was written from). *)
Record Csv := { header : list string; records : list (list Q) }.

Definition to_csv (df : DataFrame) : Csv :=
  {| header := columns df; records := values df |}.

(** [df.to_json(orient="split")], as the receiver decodes it. *)
Record SplitJson := {
  js_columns : list string;
  js_index : list nat;
  js_data : list (list Q)
}.

(** What pandas does to a number or a header on its way through a file or
    a request body, with the defaults the notebook leaves in place:
    - [float_converter]: the number [read_csv] makes of the text [to_csv]
      wrote for a number (the default converter is not the round-trip one);
    - [mangled_header]: the labels [read_csv] gives a header that is empty
      or has a blank, unprintable or repeated label (it invents or numbers
      labels, or raises);
    - [double_precision]: the number a body carries for a number
      ([to_json] writes 10 decimal places by default). *)
Record Formats := {
  float_converter : Q -> Q;
  mangled_header : list string -> result (list string);
  double_precision : Q -> Q
}.

Fixpoint distinct (l : list string) : bool :=
  match l with
  | [] => true
  | x :: l' => negb (mem x l') && distinct l'
  end.

Definition printable (c : ascii) : bool :=
  (32 <=? nat_of_ascii c)%nat && negb (Nat.eqb (nat_of_ascii c) 127).

(** A header [read_csv] reads as it is written: at least one label, every
    label a non-empty text without control characters, no label twice. *)
Definition plain_header (h : list string) : bool :=
  negb (Nat.eqb (List.length h) 0)
  && forallb (fun c => negb (String.eqb c "") && all_chars printable c) h
  && distinct h.

Section Formats.
Variable fmt : Formats.

Definition read_header (h : list string) : result (list string) :=
  if plain_header h then Ok h else mangled_header fmt h.

(** [pd.read_csv(path)]: the rows are numbered anew. *)
Definition read_csv (f : Csv) : result DataFrame :=
  match read_header (header f) with
  | Raise e => Raise e
  | Ok cols =>
      Ok {| columns := cols; index := seq 0 (List.length (records f));
            values := map (map (float_converter fmt)) (records f) |}
  end.

Definition to_json_split (df : DataFrame) : SplitJson :=
  {| js_columns := columns df; js_index := index df;
     js_data := map (map (double_precision fmt)) (values df) |}.
End Formats.

End Pandas.

(** ** scikit-learn: the dataset and its split *)

Module Sklearn.

Record Bunch := {
  data : list (list Q);
  target : list Q;
  feature_names : list string
}.

(** [fetch_california_housing()]: the rows are those of the public dataset;
    the column labels are the ones the dataset is published with. *)
Definition fetch_california_housing (rows : list (list Q)) (prices : list Q) : Bunch :=
  {| data := rows;
     target := prices;
     feature_names := ["MedInc"; "HouseAge"; "AveRooms"; "AveBedrms";
                       "Population"; "AveOccup"; "Latitude"; "Longitude"] |}.

(** The dataset as one table: every row with its target value last. *)
Definition table (b : Bunch) : list (list Q) :=
  zip_with (fun r v => r ++ [v]) (data b) (target b).

(** [_safe_indexing(a, idx)] *)
Definition safe_indexing {A} (a : list A) (idx : list nat) : result (list A) :=
  match mapM (fun i => a !! i) idx with
  | Some l => Ok l
  | None => Raise IndexError
  end.

Section Split.
(** [np.random.RandomState(seed).permutation(n)], the shuffle of the row
    numbers the split draws. *)
Variable permutation : Z -> nat -> list nat.

(** The sizes, for a [test_size] strictly between 0 and 1:
    [n_test = ceil(test_size * n)], the rest is the training set, which
    may not be empty. *)
Definition validate_shuffle_split (n_samples : nat) (test_size : Q) : result (nat * nat) :=
  if Qle_bool test_size 0 || Qle_bool 1 test_size then Raise ValueError
  else
    let n_test := Z.to_nat (Qceiling (test_size * inject_Z (Z.of_nat n_samples))) in
    let n_train := n_samples - n_test in
    if Nat.eqb n_train 0 then Raise ValueError else Ok (n_train, n_test).

(** The row numbers of the two parts: the first [n_test] of the shuffle
    are the test set, the next [n_train] the training set. *)
Definition split_indices (n_samples : nat) (test_size : Q) (random_state : Z)
  : result (list nat * list nat) :=
  match validate_shuffle_split n_samples test_size with
  | Raise e => Raise e
  | Ok (n_train, n_test) =>
      let p := permutation random_state n_samples in
      Ok (take n_train (List.skipn n_test p), take n_test p)
  end.

(** [train_test_split(X, y, test_size=.., random_state=..)] *)
Definition train_test_split {A B} (X : list A) (y : list B) (test_size : Q) (random_state : Z)
  : result (list A * list A * list B * list B) :=
  if negb (Nat.eqb (List.length X) (List.length y)) then Raise ValueError
  else
    match split_indices (List.length X) test_size random_state with
    | Raise e => Raise e
    | Ok (train, test) =>
        match safe_indexing X train, safe_indexing X test,
              safe_indexing y train, safe_indexing y test with
        | Ok X_train, Ok X_test, Ok y_train, Ok y_test =>
            Ok (X_train, X_test, y_train, y_test)
        | _, _, _, _ => Raise IndexError
        end
    end.
End Split.

End Sklearn.

(** ** Regular expressions: the fragment of Python's [re] metric definitions use *)

Module Re.

Inductive regex : Type :=
| Eps
| Lit (c : ascii)
| Dot                                         (* any character but a newline *)
| Set_ (negated : bool) (ranges : list (ascii * ascii))
| End_                                        (* $ *)
| Cat (r1 r2 : regex)
| Group (i : nat) (r : regex)
| Star (r : regex)
| Plus (r : regex).

(** *** Parsing a pattern *)

(** The sequence being read: what is complete, the last item (the one a
    quantifier applies to) and the number of the group it is the body of. *)
Record frame := { done : regex; last : option regex; gidx : nat }.

Definition close (f : frame) : regex :=
  match last f with
  | Some l => Cat (done f) l
  | None => done f
  end.

Definition push (f : frame) (a : regex) : frame :=
  {| done := close f; last := Some a; gidx := gidx f |}.

Definition quantify (q : regex -> regex) (f : frame) : option frame :=
  match last f with
  | Some l => Some {| done := done f; last := Some (q l); gidx := gidx f |}
  | None => None
  end.

Definition top : frame := {| done := Eps; last := None; gidx := 0 |}.

(** [set] is [Some (negated, ranges)] while a bracketed set is being read. *)
Fixpoint parse (s : string) (set : option (bool * list (ascii * ascii)))
    (cur : frame) (stack : list frame) (next : nat) : option regex :=
  match s with
  | EmptyString =>
      match set, stack with
      | None, [] => Some (close cur)
      | _, _ => None
      end
  | String c s' =>
      match set with
      | Some (neg, ranges) =>
          if Ascii.eqb c "]" then parse s' None (push cur (Set_ neg ranges)) stack next
          else
            match s' with
            | String "-" (String hi s'') =>
                if Ascii.eqb hi "]" then parse s' (Some (neg, ranges ++ [(c, c)])) cur stack next
                else parse s'' (Some (neg, ranges ++ [(c, hi)])) cur stack next
            | _ => parse s' (Some (neg, ranges ++ [(c, c)])) cur stack next
            end
      | None =>
          if Ascii.eqb c "(" then
            parse s' None {| done := Eps; last := None; gidx := next |} (cur :: stack) (S next)
          else if Ascii.eqb c ")" then
            match stack with
            | parent :: stack' => parse s' None (push parent (Group (gidx cur) (close cur))) stack' next
            | [] => None
            end
          else if Ascii.eqb c "*" then
            match quantify Star cur with
            | Some cur' => parse s' None cur' stack next
            | None => None
            end
          else if Ascii.eqb c "+" then
            match quantify Plus cur with
            | Some cur' => parse s' None cur' stack next
            | None => None
            end
          else if Ascii.eqb c "." then parse s' None (push cur Dot) stack next
          else if Ascii.eqb c "$" then parse s' None (push cur End_) stack next
          else if Ascii.eqb c "[" then
            match s' with
            | String "^" s'' => parse s'' (Some (true, [])) cur stack next
            | _ => parse s' (Some (false, [])) cur stack next
            end
          else if existsb (Ascii.eqb c) ["\"; "|"; "?"; "{"; "}"; "^"; "]"]%char then None
          else parse s' None (push cur (Lit c)) stack next
      end
  end.

(** The expression a literal text is read as, after [acc]. *)
Fixpoint lits (acc : regex) (l : string) : regex :=
  match l with
  | EmptyString => acc
  | String c l' => lits (Cat acc (Lit c)) l'
  end.

(** [re.compile(pattern)]; [None] for a pattern outside the fragment. *)
Definition compile (pattern : string) : option regex := parse pattern None top [] 1.

(** *** Matching *)

Definition in_ranges (c : ascii) (ranges : list (ascii * ascii)) : bool :=
  existsb (fun r => (nat_of_ascii r.1 <=? nat_of_ascii c)%nat
                    && (nat_of_ascii c <=? nat_of_ascii r.2)%nat) ranges.

Definition newline : ascii := "010".

(** The text between two positions of a subject, given as the rests of the
    subject at each. *)
Definition consumed (s s' : string) : string :=
  String.substring 0 (String.length s - String.length s') s.

Abbreviation captures := (gmap nat string).
Definition cont := string -> captures -> option captures.

(** A greedy loop: one more round of [step] where that leads to a match, the
    rest of the pattern otherwise.  A round that consumes nothing ends it. *)
Fixpoint star_loop (step : string -> captures -> cont -> option captures)
    (fuel : nat) (s : string) (caps : captures) (k : cont) : option captures :=
  match fuel with
  | O => k s caps
  | S fuel' =>
      match step s caps (fun s' caps' =>
               if (String.length s' <? String.length s)%nat
               then star_loop step fuel' s' caps' k
               else None) with
      | Some m => Some m
      | None => k s caps
      end
  end.

(** A backtracking matcher: [matches r s caps k] matches [r] at the head of
    [s] and hands the rest to [k]. *)
Fixpoint matches (r : regex) (s : string) (caps : captures) (k : cont) : option captures :=
  match r with
  | Eps => k s caps
  | Lit c =>
      match s with
      | String c' s' => if Ascii.eqb c c' then k s' caps else None
      | EmptyString => None
      end
  | Dot =>
      match s with
      | String c' s' => if Ascii.eqb c' newline then None else k s' caps
      | EmptyString => None
      end
  | Set_ neg ranges =>
      match s with
      | String c' s' => if xorb neg (in_ranges c' ranges) then k s' caps else None
      | EmptyString => None
      end
  | End_ =>
      if String.eqb s "" || String.eqb s (String newline "") then k s caps else None
  | Cat r1 r2 => matches r1 s caps (fun s' caps' => matches r2 s' caps' k)
  | Group i r1 => matches r1 s caps (fun s' caps' => k s' (<[i := consumed s s']> caps'))
  | Star r1 => star_loop (matches r1) (String.length s) s caps k
  | Plus r1 =>
      matches r1 s caps (fun s' caps' =>
        star_loop (matches r1) (String.length s') s' caps' k)
  end.

(** [re.search]: the leftmost position the pattern matches at. *)
Fixpoint search (r : regex) (s : string) : option captures :=
  match matches r s ∅ (fun _ caps => Some caps) with
  | Some m => Some m
  | None =>
      match s with
      | String _ s' => search r s'
      | EmptyString => None
      end
  end.

(** [m.group(i)] *)
Definition group (m : captures) (i : nat) : option string := m !! i.

End Re.

(** ** MLflow: the tracking server and its model registry *)

Module Mlflow.

Inductive RunStatus := RUNNING | SCHEDULED | FINISHED | FAILED | KILLED.
Inductive LifecycleStage := active | deleted.

Record RunInfo := {
  run_uuid : string;
  experiment_id : nat;
  status : RunStatus;
  start_time : Z;
  artifact_uri : string;
  lifecycle_stage : LifecycleStage
}.

Record Run := {
  info : RunInfo;
  metrics : list (string * Q)
}.

Record Experiment := { exp_id : nat; exp_name : string }.

Record ModelVersion := {
  name : string;
  version : nat;
  source : string;
  run_id : string
}.

(** The server: its experiments, their runs, and the registry, which maps
    the name of a registered model to its versions, newest first. *)
Record Server := {
  experiments : list Experiment;
  runs : list Run;
  registered_models : gmap string (list ModelVersion)
}.

Definition with_experiments (f : list Experiment -> list Experiment) (sv : Server) : Server :=
  {| experiments := f (experiments sv); runs := runs sv;
     registered_models := registered_models sv |}.

Definition with_registered_models
    (f : gmap string (list ModelVersion) -> gmap string (list ModelVersion)) (sv : Server) : Server :=
  {| experiments := experiments sv; runs := runs sv;
     registered_models := f (registered_models sv) |}.

(** *** Experiments *)

(** [mlflow.get_experiment_by_name]: [None] when there is none. *)
Definition get_experiment_by_name (sv : Server) (nm : string) : option Experiment :=
  snd <$> list_find (fun e => exp_name e = nm) (experiments sv).

(** [mlflow.set_experiment]: the experiment is created when it is missing. *)
Definition set_experiment (sv : Server) (nm : string) : Server :=
  match get_experiment_by_name sv nm with
  | Some _ => sv
  | None =>
      with_experiments
        (fun es => es ++ [{| exp_id := S (max_list (exp_id <$> es)); exp_name := nm |}]) sv
  end.

(** *** Searching runs *)

Inductive SortKey := attribute_start_time | metric (key : string).
Inductive Direction := ASC | DESC.

(** A key may be quoted with backticks. *)
Definition unquote (s : string) : string :=
  match s with
  | String "`" s' =>
      if String.eqb (String.substring (String.length s' - 1) 1 s') "`"
      then String.substring 0 (String.length s' - 1) s'
      else s
  | _ => s
  end.

Definition invalid_parameter {A} : result A := Raise (MlflowException "INVALID_PARAMETER_VALUE").

Definition parse_key (s : string) : result SortKey :=
  match strip_prefix "attribute." s, strip_prefix "metrics." s with
  | Some a, _ => if String.eqb (unquote a) "start_time" then Ok attribute_start_time
                 else invalid_parameter
  | None, Some m => Ok (metric (unquote m))
  | None, None => invalid_parameter
  end.

(** An [order_by] clause: a key and, optionally, a direction. *)
Definition parse_order_by (clause : string) : result (SortKey * Direction) :=
  match split clause with
  | [k] => match parse_key k with Ok key => Ok (key, ASC) | Raise e => Raise e end
  | [k; d] =>
      match parse_key k with
      | Ok key =>
          if String.eqb d "ASC" then Ok (key, ASC)
          else if String.eqb d "DESC" then Ok (key, DESC)
          else invalid_parameter
      | Raise e => Raise e
      end
  | _ => invalid_parameter
  end.

(** The value a run is ordered by; a run that did not log the metric has none. *)
Definition sort_value (k : SortKey) (r : Run) : option Q :=
  match k with
  | attribute_start_time => Some (inject_Z (start_time (info r)))
  | metric key => assoc key (metrics r)
  end.

(** Runs without a value come last, whatever the direction. *)
Definition precedes (c : SortKey * Direction) (r1 r2 : Run) : bool :=
  match sort_value c.1 r1, sort_value c.1 r2 with
  | Some a, Some b =>
      match c.2 with
      | ASC => Qle_bool a b
      | DESC => Qle_bool b a
      end
  | Some _, None => true
  | None, Some _ => false
  | None, None => true
  end.

Fixpoint insert_sorted {A} (le : A -> A -> bool) (x : A) (l : list A) : list A :=
  match l with
  | [] => [x]
  | y :: l' => if le x y then x :: y :: l' else y :: insert_sorted le x l'
  end.

(** A stable sort. *)
Definition sort_by {A} (le : A -> A -> bool) (l : list A) : list A :=
  foldr (insert_sorted le) [] l.

Fixpoint parse_clauses (order_by : list string) : result (list (SortKey * Direction)) :=
  match order_by with
  | [] => Ok []
  | c :: cs =>
      match parse_order_by c, parse_clauses cs with
      | Ok x, Ok xs => Ok (x :: xs)
      | Raise e, _ => Raise e
      | _, Raise e => Raise e
      end
  end.

Definition is_active (r : Run) : bool :=
  match lifecycle_stage (info r) with active => true | deleted => false end.

(** The runs a search with an empty filter ranges over: the runs of the
    experiment that were not deleted, whatever their status. *)
Definition candidates (sv : Server) (experiment : nat) : list Run :=
  List.filter (fun r => is_active r && Nat.eqb (experiment_id (info r)) experiment) (runs sv).

(** [client.search_runs(experiment_ids=.., filter_string="", max_results=..,
    order_by=..)]: the runs are ordered by the clauses, the first one the
    most significant, and by their start time, latest first, among equals. *)
Definition search_runs (sv : Server) (experiment : nat) (max_results : nat)
    (order_by : list string) : result (list Run) :=
  match parse_clauses order_by with
  | Raise e => Raise e
  | Ok clauses =>
      Ok (take max_results
            (foldr (fun c acc => sort_by (precedes c) acc)
                   (sort_by (precedes (attribute_start_time, DESC)) (candidates sv experiment))
                   clauses))
  end.

(** *** The registry *)

(** [client.create_registered_model(name)]: a name can be registered once. *)
Definition create_registered_model (sv : Server) (nm : string) : result Server :=
  match registered_models sv !! nm with
  | Some _ => Raise (MlflowException "RESOURCE_ALREADY_EXISTS")
  | None => Ok (with_registered_models (fun m => <[nm := []]> m) sv)
  end.

(** The number the next version of a model gets: one more than the highest. *)
Definition next_version (versions : list ModelVersion) : nat :=
  S (max_list (version <$> versions)).

(** [client.create_model_version(name, source, run_id)] *)
Definition create_model_version (sv : Server) (nm src rid : string)
    : result (ModelVersion * Server) :=
  match registered_models sv !! nm with
  | None => Raise (MlflowException "RESOURCE_DOES_NOT_EXIST")
  | Some versions =>
      let mv := {| name := nm; version := next_version versions; source := src; run_id := rid |} in
      Ok (mv, with_registered_models (fun m => <[nm := mv :: versions]> m) sv)
  end.

(** The versions of a model the registry holds. *)
Definition versions_of (sv : Server) (nm : string) : list ModelVersion :=
  default [] (registered_models sv !! nm).

End Mlflow.

(** ** AWS: Secrets Manager and the SageMaker endpoints *)

Module Aws.

(** A secret with a binary value has no [SecretString]. *)
Record GetSecretValueResponse := { SecretString : option string }.

Abbreviation SecretsManager := (gmap (string * string) GetSecretValueResponse).

(** [client.get_secret_value(SecretId=..)] of the client of a region. *)
Definition get_secret_value (sm : SecretsManager) (region_name secret_id : string)
    : result GetSecretValueResponse :=
  match sm !! (region_name, secret_id) with
  | Some r => Ok r
  | None => Raise (ClientError "ResourceNotFoundException")
  end.

(** [secret['SecretString']] *)
Definition secret_string (r : GetSecretValueResponse) : result string :=
  match SecretString r with
  | Some s => Ok s
  | None => Raise (KeyError "SecretString")
  end.

(** A model behind an endpoint. *)
Record ModelConfig := {
  model_uri : string;
  image_url : string;
  execution_role_arn : string;
  instance_type : string;
  instance_count : nat
}.

(** The endpoints of the account, by region and name, each with the models
    it serves. *)
Abbreviation Endpoints := (gmap (string * string) (list ModelConfig)).

Inductive DeploymentMode := create | replace | add.

(** [mlflow.sagemaker.deploy(mode=.., app_name=.., ..)] *)
Definition deploy (eps : Endpoints) (mode : DeploymentMode) (app_name region_name : string)
    (m : ModelConfig) : result Endpoints :=
  match mode, eps !! (region_name, app_name) with
  | create, Some _ => Raise (MlflowException "INVALID_PARAMETER_VALUE")
  | create, None => Ok (<[(region_name, app_name) := [m]]> eps)
  | replace, _ => Ok (<[(region_name, app_name) := [m]]> eps)
  | add, Some ms => Ok (<[(region_name, app_name) := ms ++ [m]]> eps)
  | add, None => Ok (<[(region_name, app_name) := [m]]> eps)
  end.

(** [mlflow.sagemaker.delete(app_name=.., region_name=..)]; it returns once
    the endpoint is gone. *)
Definition delete (eps : Endpoints) (app_name region_name : string) : result Endpoints :=
  match eps !! (region_name, app_name) with
  | Some _ => Ok (base.delete (region_name, app_name) eps)
  | None => Raise (ClientError "ValidationException")
  end.

(** [runtime.invoke_endpoint(EndpointName=.., Body=..)]: the models behind
    the endpoint answer; there is no answer from an endpoint that is not there. *)
Definition invoke_endpoint {Body Answer : Type} (eps : Endpoints)
    (serve : list ModelConfig -> Body -> Answer)
    (region_name endpoint : string) (body : Body) : result Answer :=
  match eps !! (region_name, endpoint) with
  | Some ms => Ok (serve ms body)
  | None => Raise (ClientError "ValidationError")
  end.

End Aws.

(** ** SageMaker: training jobs and their metrics *)

Module SageMaker.

Record MetricDefinition := { Name : string; Regex : string }.

(** The value a metric definition finds in a line of the log of a job: the
    first group of the leftmost match of its pattern. *)
Definition metric_value (d : MetricDefinition) (line : string) : option string :=
  match Re.compile (Regex d) with
  | Some r =>
      match Re.search r line with
      | Some m => Re.group m 1
      | None => None
      end
  | None => None
  end.

Inductive HyperparameterValue := HStr (s : string) | HInt (n : Z).

Record SKLearn := {
  entry_point : string;
  source_dir : string;
  sk_role : string;
  sk_metric_definitions : list MetricDefinition;
  sk_hyperparameters : list (string * HyperparameterValue);
  sk_instance_count : nat;
  sk_instance_type : string;
  framework_version : string;
  base_job_name : option string;
  py_version : option string
}.

Inductive ParameterRange := IntegerParameter (min_value max_value : Z).

Inductive ObjectiveType := Minimize | Maximize.

Record HyperparameterTuner := {
  estimator : SKLearn;
  objective_metric_name : string;
  hyperparameter_ranges : list (string * ParameterRange);
  metric_definitions : list MetricDefinition;
  max_jobs : nat;
  max_parallel_jobs : nat;
  objective_type : ObjectiveType;
  base_tuning_job_name : string
}.

End SageMaker.

(** ** The notebook *)

Module Notebook.
Import Pandas Sklearn Mlflow Aws SageMaker.

(** *** The state the cells run in *)

(** What [print] is given: a template and its arguments. *)
Inductive Arg :=
| AStr (s : string)
| ANat (n : nat)
| ANum (q : Q)
| AVersion (mv : ModelVersion)
| AFrame (df : DataFrame).

Record World := {
  environ : gmap string string;            (* os.environ *)
  secretsmanager : SecretsManager;
  server : Server;                         (* the MLflow server *)
  endpoints : Endpoints;
  disk : gmap string Csv;                  (* the working directory *)
  s3 : gmap string Csv;
  stdout : list (string * list Arg)
}.

Definition M (A : Type) : Type := World -> result A * World.

Definition ret {A} (a : A) : M A := fun w => (Ok a, w).
Definition raise {A} (e : exn) : M A := fun w => (Raise e, w).
Definition bind {A B} (c : M A) (k : A -> M B) : M B :=
  fun w => match c w with
           | (Ok a, w') => k a w'
           | (Raise e, w') => (Raise e, w')
           end.
Definition lift {A} (r : result A) : M A := fun w => (r, w).

(** [try: c  except: h] *)
Definition try_except {A} (c : M A) (h : M A) : M A :=
  fun w => match c w with
           | (Ok a, w') => (Ok a, w')
           | (Raise _, w') => h w'
           end.

Notation "x <- c ;; k" := (bind c (fun x => k))
  (at level 100, c at next level, right associativity).
Notation "c ;;; k" := (bind c (fun _ => k))
  (at level 100, right associativity).

Definition set_environ (f : gmap string string -> gmap string string) (w : World) : World :=
  {| environ := f (environ w); secretsmanager := secretsmanager w; server := server w;
     endpoints := endpoints w; disk := disk w; s3 := s3 w; stdout := stdout w |}.
Definition set_server (sv : Server) (w : World) : World :=
  {| environ := environ w; secretsmanager := secretsmanager w; server := sv;
     endpoints := endpoints w; disk := disk w; s3 := s3 w; stdout := stdout w |}.
Definition set_endpoints (eps : Endpoints) (w : World) : World :=
  {| environ := environ w; secretsmanager := secretsmanager w; server := server w;
     endpoints := eps; disk := disk w; s3 := s3 w; stdout := stdout w |}.
Definition set_disk (f : gmap string Csv -> gmap string Csv) (w : World) : World :=
  {| environ := environ w; secretsmanager := secretsmanager w; server := server w;
     endpoints := endpoints w; disk := f (disk w); s3 := s3 w; stdout := stdout w |}.
Definition set_s3 (f : gmap string Csv -> gmap string Csv) (w : World) : World :=
  {| environ := environ w; secretsmanager := secretsmanager w; server := server w;
     endpoints := endpoints w; disk := disk w; s3 := f (s3 w); stdout := stdout w |}.

Definition print (template : string) (args : list Arg) : M unit :=
  fun w => (Ok tt,
            {| environ := environ w; secretsmanager := secretsmanager w; server := server w;
               endpoints := endpoints w; disk := disk w; s3 := s3 w;
               stdout := stdout w ++ [(template, args)] |}).

(** [os.environ[key]] *)
Definition getenv (key : string) : M string :=
  fun w => match environ w !! key with
           | Some v => (Ok v, w)
           | None => (Raise (KeyError key), w)
           end.

Definition has_nul (s : string) : bool := negb (all_chars (fun c => negb (Ascii.eqb c "000")) s).
Definition has_equals (s : string) : bool := negb (all_chars (fun c => negb (Ascii.eqb c "=")) s).

(** [os.environ[key] = value]: only a string can be stored, and neither
    the name nor the value may hold a NUL, nor the name be empty or hold
    an equals sign. *)
Definition putenv (key : string) (value : json) : M unit :=
  fun w => match value with
           | JStr v =>
               if has_nul key || has_nul v || String.eqb key "" || has_equals key
               then (Raise ValueError, w)
               else (Ok tt, set_environ (fun e => <[key := v]> e) w)
           | _ => (Raise TypeError, w)
           end.

(** [random.randrange(start, stop)]; [draw] is what the generator yields. *)
Definition randrange (draw : nat) (start stop : nat) : result nat :=
  if (stop <=? start)%nat then Raise ValueError
  else Ok (start + draw mod (stop - start)).

(** *** The first cell (lines 112-147) *)

(** What the SageMaker session provides. *)
Record Session := {
  role : string;
  bucket : string;
  region : string
}.

Definition experiment_name : string := "california-housing".
Definition model_name : string := "california-housing-model".

Record Globals := {
  account : string;
  tracking_uri : string;
  mlflow_secret_name : string
}.

Definition first_cell (sess : Session) : M Globals :=
  after <- lift (item (split_on "::" (role sess)) 1) ;;
  account <- lift (item (split_on ":" after) 0) ;;
  tracking_uri <- getenv "MLFLOWSERVER" ;;
  mlflow_secret_name <- getenv "MLFLOW_SECRET_NAME" ;;
  role_name <- lift (last_item (split_on "/" (role sess))) ;;
  print "SageMaker role: {}" [AStr role_name] ;;;
  print "bucket: {}" [AStr (bucket sess)] ;;;
  print "Account: {}" [AStr account] ;;;
  print "Using AWS Region: {}" [AStr (region sess)] ;;;
  print "MLflow server URI: {}" [AStr tracking_uri] ;;;
  print "MLFLOW_SECRET_NAME: {}" [AStr mlflow_secret_name] ;;;
  ret {| account := account; tracking_uri := tracking_uri;
         mlflow_secret_name := mlflow_secret_name |}.

Section Cells.
(** What the libraries compute and the notebook only passes on: the
    shuffle of the split, the JSON parser, the prediction of the model
    loaded from a URI, the answer of the models behind an endpoint, and
    the way pandas writes and reads numbers and headers. *)
Variable permutation : Z -> nat -> list nat.
Variable json_loads : string -> result json.
Variable model_predict : string -> DataFrame -> list Q.
Variable serve : list ModelConfig -> SplitJson -> list Q.
Variable fmt : Formats.

Variable sess : Session.

(** *** Data preparation (lines 166-197) *)

Definition test_size : Q := 0.25.
Definition random_state : Z := 42.

Definition data_preparation (data : Bunch)
    : result (DataFrame * DataFrame * list Q) :=
  match train_test_split permutation (Sklearn.data data) (target data)
          test_size random_state with
  | Raise e => Raise e
  | Ok (X_train, X_test, y_train, y_test) =>
      match DataFrame_of X_train (feature_names data) with
      | Raise e => Raise e
      | Ok trainX0 =>
          match setitem trainX0 "target" y_train with
          | Raise e => Raise e
          | Ok trainX =>
              match DataFrame_of X_test (feature_names data) with
              | Raise e => Raise e
              | Ok testX0 =>
                  match setitem testX0 "target" y_test with
                  | Raise e => Raise e
                  | Ok testX => Ok (trainX, testX, y_test)
                  end
              end
          end
      end
  end.

(** A path of the working directory, with or without a leading [./]. *)
Definition normpath (path : string) : string :=
  match strip_prefix "./" path with
  | Some p => p
  | None => path
  end.

Definition to_csv (df : DataFrame) (path : string) : M unit :=
  fun w => (Ok tt, set_disk (fun d => <[normpath path := Pandas.to_csv df]> d) w).

Definition read_csv (path : string) : M DataFrame :=
  fun w => match disk w !! normpath path with
           | Some f => (Pandas.read_csv fmt f, w)
           | None => (Raise (ClientError "FileNotFoundError"), w)
           end.

(** [sess.upload_data(path, bucket, key_prefix)]: the location of the copy. *)
Definition upload_data (path bkt key_prefix : string) : M string :=
  fun w => match disk w !! normpath path with
           | Some f =>
               let uri := "s3://" +:+ bkt +:+ "/" +:+ key_prefix +:+ "/" +:+ normpath path in
               (Ok uri, set_s3 (fun m => <[uri := f]> m) w)
           | None => (Raise ValueError, w)
           end.

Definition save_data (trainX testX : DataFrame) : M (string * string) :=
  to_csv trainX "california_train.csv" ;;;
  to_csv testX "california_test.csv" ;;;
  train_path <- upload_data "california_train.csv" (bucket sess) "sagemaker/sklearncontainer" ;;
  test_path <- upload_data "california_test.csv" (bucket sess) "sagemaker/sklearncontainer" ;;
  ret (train_path, test_path).

(** *** Training in local mode (lines 274-297) *)

Definition metric_definitions : list MetricDefinition :=
  [ {| Name := "median-AE"; Regex := "AE-at-50th-percentile: ([0-9.]+).*$" |} ].

Definition features : string := "MedInc HouseAge AveRooms AveBedrms Population AveOccup".

Definition hyperparameters (g : Globals) : list (string * HyperparameterValue) :=
  [ ("tracking_uri", HStr (tracking_uri g));
    ("experiment_name", HStr experiment_name);
    ("secret_name", HStr (mlflow_secret_name g));
    ("region", HStr (region sess));
    ("n-estimators", HInt 100);
    ("min-samples-leaf", HInt 3);
    ("features", HStr features);
    ("target", HStr "target") ].

Definition estimator (g : Globals) : SKLearn := {|
  entry_point := "train.py";
  source_dir := "source_dir";
  sk_role := role sess;
  sk_metric_definitions := metric_definitions;
  sk_hyperparameters := hyperparameters g;
  sk_instance_count := 1;
  sk_instance_type := "local";
  framework_version := "0.23-1";
  base_job_name := Some "mlflow";
  py_version := None
|}.

(** [estimator.fit] and, further down, [tuner.fit] hand the job to
    SageMaker; what the notebook sees of it afterwards is the runs the
    training script logged on the MLflow server. *)

(** *** Credentials (lines 331-350) *)

Definition retrieve_credentials (region_name secret_name : string)
    : M (list (string * json)) :=
  fun w =>
    match get_secret_value (secretsmanager w) region_name secret_name with
    | Raise e => (Raise e, w)
    | Ok secret =>
        let lookup key :=
          match secret_string secret with
          | Raise e => Raise e
          | Ok s =>
              match json_loads s with
              | Raise e => Raise e
              | Ok v => getitem v key
              end
          end in
        match lookup "username" with
        | Raise e => (Raise e, w)
        | Ok username =>
            match lookup "password" with
            | Raise e => (Raise e, w)
            | Ok password => (Ok [("username", username); ("password", password)], w)
            end
        end
    end.

Definition credentials_cell (g : Globals) : M unit :=
  credentials <- retrieve_credentials (region sess) (mlflow_secret_name g) ;;
  username <- lift (getitem (JObj credentials) "username") ;;
  putenv "MLFLOW_TRACKING_USERNAME" username ;;;
  password <- lift (getitem (JObj credentials) "password") ;;
  putenv "MLFLOW_TRACKING_PASSWORD" password.

(** *** Run selection and model registration (lines 359-387, 625-647) *)

(** The run the query puts first; [experiment.experiment_id] fails on
    [None], [[0]] on an empty answer. *)
Definition select_run (order_by : list string) : M Run :=
  fun w =>
    match get_experiment_by_name (server w) experiment_name with
    | None => (Raise AttributeError, w)
    | Some experiment =>
        match search_runs (server w) (exp_id experiment) 1 order_by with
        | Raise e => (Raise e, w)
        | Ok found => (first found, w)
        end
    end.

Definition create_registered_model (nm : string) : M unit :=
  fun w => match Mlflow.create_registered_model (server w) nm with
           | Ok sv => (Ok tt, set_server sv w)
           | Raise e => (Raise e, w)
           end.

Definition create_model_version (nm src rid : string) : M ModelVersion :=
  fun w => match Mlflow.create_model_version (server w) nm src rid with
           | Ok (mv, sv) => (Ok mv, set_server sv w)
           | Raise e => (Raise e, w)
           end.

Definition register_model (nm : string) (run : Run) : M ModelVersion :=
  try_except (create_registered_model nm)
             (print "Registered model already exists" []) ;;;
  model_version <- create_model_version nm
                     (artifact_uri (info run) +:+ "/model") (run_uuid (info run)) ;;
  print "model_version: {}" [AVersion model_version] ;;;
  ret model_version.

Definition latest_run : M Run := select_run ["attribute.start_time DESC"].

Definition register_latest_cell : M ModelVersion :=
  (fun w => (Ok tt, set_server (set_experiment (server w) experiment_name) w)) ;;;
  run <- latest_run ;;
  register_model model_name run.

Definition best_run : M Run := select_run ["metrics.`AE-at-50th-percentile` ASC"].

Definition register_best_cell : M ModelVersion :=
  run <- best_run ;;
  register_model model_name run.

(** *** Local prediction (lines 404-424) *)

Definition dropped : list string := ["Latitude"; "Longitude"; "target"].

(** The row the model is asked about. *)
Definition local_prediction_data (testX : DataFrame) (draw : nat) : result (nat * DataFrame) :=
  match randrange draw 0 (List.length (values testX)) with
  | Raise e => Raise e
  | Ok index =>
      match drop testX dropped with
      | Raise e => Raise e
      | Ok d =>
          match iloc d index with
          | Raise e => Raise e
          | Ok data => Ok (index, data)
          end
      end
  end.

Definition local_prediction_cell (model_version : ModelVersion) (testX : DataFrame)
    (y_test : list Q) (draw : nat) : M (Q * Q) :=
  let model_uri := source model_version in
  print "Model URI: {}" [AStr model_uri] ;;;
  sel <- lift (local_prediction_data testX draw) ;;
  print "Random index value: {}" [ANat sel.1] ;;;
  print "#######\nData for prediction \n{}" [AFrame sel.2] ;;;
  y_hat <- lift (first (model_predict model_uri sel.2)) ;;
  y <- lift (match y_test !! sel.1 with Some y => Ok y | None => Raise IndexError end) ;;
  print "Predicted value: {}" [ANum y_hat] ;;;
  print "Actual value: {}" [ANum y] ;;;
  ret (y_hat, y).

(** *** Hyperparameter tuning (lines 445-560) *)

Definition tuning_hyperparameters (g : Globals) : list (string * HyperparameterValue) :=
  [ ("tracking_uri", HStr (tracking_uri g));
    ("experiment_name", HStr experiment_name);
    ("secret_name", HStr (mlflow_secret_name g));
    ("region", HStr (region sess));
    ("features", HStr features);
    ("target", HStr "target") ].

Definition remote_estimator (g : Globals) : SKLearn := {|
  entry_point := "train.py";
  source_dir := "source_dir";
  sk_role := role sess;
  sk_metric_definitions := metric_definitions;
  sk_hyperparameters := tuning_hyperparameters g;
  sk_instance_count := 1;
  sk_instance_type := "ml.m5.xlarge";
  framework_version := "0.23-1";
  base_job_name := None;
  py_version := Some "py3"
|}.

Definition hyperparameter_ranges : list (string * ParameterRange) :=
  [ ("n-estimators", IntegerParameter 50 200);
    ("min-samples-leaf", IntegerParameter 1 10) ].

Definition objective_metric_name : string := "median-AE".
Definition objective_type : ObjectiveType := Minimize.

Definition max_jobs : nat := 10.
Definition max_parallel_jobs : nat := 3.

Definition tuner (g : Globals) : HyperparameterTuner := {|
  SageMaker.estimator := remote_estimator g;
  SageMaker.objective_metric_name := objective_metric_name;
  SageMaker.hyperparameter_ranges := hyperparameter_ranges;
  SageMaker.metric_definitions := metric_definitions;
  SageMaker.max_jobs := max_jobs;
  SageMaker.max_parallel_jobs := max_parallel_jobs;
  SageMaker.objective_type := objective_type;
  base_tuning_job_name := "mlflow"
|}.

(** *** Deployment, prediction and teardown (lines 656-720) *)

Definition endpoint_name : string := "california-housing".

(** The version of the MLflow library the notebook installs. *)
Definition mlflow_version : string := "1.22.0".

(** The image the container was pushed as (lines 605-607). *)
Definition image_uri (g : Globals) : string :=
  account g +:+ ".dkr.ecr." +:+ region sess +:+ ".amazonaws.com/mlflow-pyfunc:"
  +:+ mlflow_version.

Definition image_cell (g : Globals) : M string :=
  print "image URI: {}" [AStr (image_uri g)] ;;; ret (image_uri g).

Definition deploy_cell (g : Globals) (model_version : ModelVersion) : M unit :=
  fun w =>
    let model_uri := "models:/" +:+ name model_version +:+ "/"
                     +:+ pretty (version model_version) in
    match deploy (endpoints w) create endpoint_name (region sess)
            {| Aws.model_uri := model_uri;
               image_url := image_uri g;
               execution_role_arn := role sess;
               instance_type := "ml.m5.xlarge";
               instance_count := 1 |} with
    | Ok eps => (Ok tt, set_endpoints eps w)
    | Raise e => (Raise e, w)
    end.

(** The body of a request: one row of [df], picked at random. *)
Definition endpoint_payload (df : DataFrame) (index : nat) : result SplitJson :=
  match iloc df index with
  | Ok row => Ok (to_json_split fmt row)
  | Raise e => Raise e
  end.

(** [runtime.invoke_endpoint(EndpointName=.., Body=payload)] with the
    client of the region of the session. *)
Definition invoke (endpoint : string) (payload : SplitJson) : M (list Q) :=
  fun w => (invoke_endpoint (endpoints w) serve (region sess) endpoint payload, w).

(** [df_y['target'][index]] *)
Definition target_at (df_y : DataFrame) (index : nat) : result Q :=
  match position "target" (columns df_y), values df_y !! index with
  | Some c, Some row =>
      match row !! c with
      | Some y => Ok y
      | None => Raise IndexError
      end
  | None, _ => Raise (KeyError "target")
  | _, None => Raise (KeyError "index")
  end.

Definition predict_once (df df_y : DataFrame) (draw : nat) : M unit :=
  index <- lift (randrange draw 0 (List.length (values df_y))) ;;
  payload <- lift (endpoint_payload df index) ;;
  y <- lift (target_at df_y index) ;;
  prediction <- invoke endpoint_name payload ;;
  print "This is the real value of the housing we want to predict (expressed in 100.000$): {}"
        [ANum y] ;;;
  p0 <- lift (first prediction) ;;
  print "This is the predicted value from our model (expressed in 100.000$): {}" [ANum p0].

(** [for _ in range(0, n): body] *)
Fixpoint for_range (n : nat) (i : nat) (body : nat -> M unit) : M unit :=
  match n with
  | O => ret tt
  | S n' => body i ;;; for_range n' (S i) body
  end.

(** The frame the requests are cut from. *)
Definition prediction_frames : M (DataFrame * DataFrame) :=
  data <- read_csv "./california_test.csv" ;;
  df_y <- lift (getcols data ["target"]) ;;
  df <- lift (drop data dropped) ;;
  ret (df, df_y).

(** [draws i] is what the generator yields in round [i]. *)
Definition predict_cell (draws : nat -> nat) : M unit :=
  frames <- prediction_frames ;;
  for_range 2 0 (fun i => predict_once frames.1 frames.2 (draws i)).

Definition delete_cell : M unit :=
  fun w => match delete (endpoints w) endpoint_name (region sess) with
           | Ok eps => (Ok tt, set_endpoints eps w)
           | Raise e => (Raise e, w)
           end.

End Cells.

End Notebook.

(** ** The pattern of the metric definition, read *)

Module MetricPattern.
Import Re.

(** What precedes the number in a line that reports the metric. *)
Definition label : string := "AE-at-50th-percentile: ".

(** [[0-9.]] *)
Definition digit_or_dot (c : ascii) : bool := in_ranges c [("0", "9"); (".", ".")]%char.

(** What [.] matches. *)
Definition not_newline (c : ascii) : bool := negb (Ascii.eqb c newline).

Definition number_set : regex := Set_ false [("0", "9"); (".", ".")]%char.
Definition any_char : regex := Dot.

(** The expression [AE-at-50th-percentile: ([0-9.]+).*$] is read as. *)
Definition metric_regex : regex :=
  Cat (Cat (Cat (lits Eps label) (Group 1 (Cat Eps (Plus number_set)))) (Star any_char)) End_.

End MetricPattern.

(** ** The columns of the dataset *)

Module Features.

(** The features a model is trained on. *)
Definition six : list string :=
  ["MedInc"; "HouseAge"; "AveRooms"; "AveBedrms"; "Population"; "AveOccup"].

(** The columns of the frames the data preparation builds. *)
Definition nine : list string :=
  ["MedInc"; "HouseAge"; "AveRooms"; "AveBedrms"; "Population"; "AveOccup";
   "Latitude"; "Longitude"; "target"].

(** The columns of [nine] that are in [six]. *)
Definition feature_mask : list bool :=
  [true; true; true; true; true; true; false; false; false].

End Features.

(** ** Predicates on texts, used to state what the string handling does *)

Module Text.

(** The first character of [s] satisfies [p]. *)
Definition starts_with (p : ascii -> bool) (s : string) : bool :=
  match s with
  | String c _ => p c
  | EmptyString => false
  end.

(** [sep] occurs somewhere in [s]. *)
Fixpoint occurs (sep s : string) : bool :=
  match strip_prefix sep s with
  | Some _ => true
  | None =>
      match s with
      | String _ s' => occurs sep s'
      | EmptyString => false
      end
  end.

Definition is_not (c : ascii) (x : ascii) : bool := negb (Ascii.eqb x c).

(** The part of [s] before the first [c], all of [s] when there is none. *)
Fixpoint upto (c : ascii) (s : string) : string :=
  match s with
  | EmptyString => EmptyString
  | String x s' => if Ascii.eqb c x then EmptyString else String x (upto c s')
  end.

End Text.

(** ** Ways to describe what a cell left behind *)

Module Effects.
Import Pandas Notebook.

(** The state after some more lines were printed. *)
Definition printed (lines : list (string * list Arg)) (w : World) : World :=
  {| environ := environ w; secretsmanager := secretsmanager w; server := server w;
     endpoints := endpoints w; disk := disk w; s3 := s3 w;
     stdout := stdout w ++ lines |}.

(** Two states that differ in what was printed at most. *)
Definition same_but_stdout (w w' : World) : Prop :=
  environ w' = environ w /\ secretsmanager w' = secretsmanager w /\ server w' = server w
  /\ endpoints w' = endpoints w /\ disk w' = disk w /\ s3 w' = s3 w.




(** The column of [Features.nine] that is the target. *)
Definition target_mask : list bool :=
  [false; false; false; false; false; false; false; false; true].

(** What one round of the prediction cell prints about row [i] of the test
    frame that was saved: the target of the row, as it is read back from
    the file, then the first answer of the models [ms] to the six features
    of the row, as they are read back and as the body carries them. *)
Definition round_prints (fmt : Formats) (serve : list Aws.ModelConfig -> SplitJson -> list Q)
    (ms : list Aws.ModelConfig) (testX : DataFrame) (i : nat) (args : list (list Arg)) : Prop :=
  exists row y p rest,
    values testX !! i = Some row
    /\ last row = Some y
    /\ serve ms {| js_columns := Features.six; js_index := [i];
                   js_data := [map (fun x => double_precision fmt (float_converter fmt x))
                                   (take 6 row)] |}
       = p :: rest
    /\ args = [[ANum (float_converter fmt y)]; [ANum p]].

End Effects.

(** ** Sample inputs *)

Module Examples.
Import Cdk Pandas Sklearn Mlflow Aws SageMaker Notebook Features.

Definition example_vpc : Vpc :=
  {| publicSubnets := [ {| subnetId := "subnet-0a" |}; {| subnetId := "subnet-0b" |} ];
     vpcDefaultSecurityGroup := "sg-default" |}.

Definition example_metric : MetricDefinition :=
  {| Name := "median-AE"; Regex := "AE-at-50th-percentile: ([0-9.]+).*$" |}.

(** A generator whose shuffle is the reversal, and a table of 100 rows. *)
Definition reversal (seed : Z) (n : nat) : list nat := rev (seq 0 n).

Definition rows100 : list (list Q) :=
  (fun i => repeat (inject_Z (Z.of_nat i)) 8) <$> seq 0 100.
Definition prices100 : list Q := (fun i => inject_Z (Z.of_nat (10 * i))) <$> seq 0 100.

(** A server with the experiment of the notebook and three runs of it: two
    finished, and a later one that failed after logging the metric. *)
Definition run_a : Run :=
  {| info := {| run_uuid := "a"; experiment_id := 1; status := FINISHED; start_time := 100%Z;
                artifact_uri := "s3://artifacts/1/a/artifacts"; lifecycle_stage := active |};
     metrics := [("AE-at-50th-percentile", 0.4%Q)] |}.
Definition run_b : Run :=
  {| info := {| run_uuid := "b"; experiment_id := 1; status := FINISHED; start_time := 200%Z;
                artifact_uri := "s3://artifacts/1/b/artifacts"; lifecycle_stage := active |};
     metrics := [("AE-at-50th-percentile", 0.7%Q)] |}.
Definition run_c : Run :=
  {| info := {| run_uuid := "c"; experiment_id := 1; status := FAILED; start_time := 300%Z;
                artifact_uri := "s3://artifacts/1/c/artifacts"; lifecycle_stage := active |};
     metrics := [("AE-at-50th-percentile", 0.1%Q)] |}.

Definition example_server : Server :=
  {| experiments := [ {| exp_id := 1; exp_name := "california-housing" |} ];
     runs := [run_a; run_b; run_c];
     registered_models := ∅ |}.

Definition example_world : World :=
  {| environ := ∅; secretsmanager := ∅; server := example_server; endpoints := ∅;
     disk := ∅; s3 := ∅; stdout := [] |}.

(** The session of an instance, the variables of the first cell, a parser
    that knows one text, and a store with the secret of the server. *)
Definition example_session : Session :=
  {| role := "arn:aws:iam::123456789012:role/sagemaker-execution-role";
     bucket := "sagemaker-eu-west-1-123456789012";
     region := "eu-west-1" |}.

Definition example_globals : Globals :=
  {| account := "123456789012"; tracking_uri := "https://mlflow.example";
     mlflow_secret_name := "mlflow-server-credentials" |}.

(** Two secrets, as JSON texts: one with a password that is a string, one
    with a password that is a number. *)
Definition quoted (s : string) : string := String "034" (s +:+ String "034" "").

Definition example_secret : string :=
  "{" +:+ quoted "username" +:+ ": " +:+ quoted "admin" +:+ ", "
      +:+ quoted "password" +:+ ": " +:+ quoted "hunter2" +:+ "}".

Definition numeric_secret : string :=
  "{" +:+ quoted "username" +:+ ": " +:+ quoted "admin" +:+ ", "
      +:+ quoted "password" +:+ ": 12345}".

Definition example_json_loads (s : string) : result json :=
  if String.eqb s example_secret
  then Ok (JObj [("username", JStr "admin"); ("password", JStr "hunter2")])
  else if String.eqb s numeric_secret
  then Ok (JObj [("username", JStr "admin"); ("password", JNum 12345)])
  else Raise JSONDecodeError.

Definition world_with_secret : World :=
  {| environ := ∅;
     secretsmanager :=
       {[ ("eu-west-1", "mlflow-server-credentials") := {| SecretString := Some example_secret |} ]};
     server := example_server; endpoints := ∅; disk := ∅; s3 := ∅; stdout := [] |}.


(** A converter that reads every number back as it was written, a header
    reader that refuses what is not plain, and bodies that carry numbers
    rounded down to 10 decimal places. *)
Definition example_formats : Formats :=
  {| float_converter := fun q => q;
     mangled_header := fun _ => Raise ValueError;
     double_precision := fun q => (Qfloor (q * 10000000000) # 10000000000)%Q |}.

Definition example_version : ModelVersion :=
  {| name := "california-housing-model"; version := 1;
     source := "s3://artifacts/1/a/artifacts/model"; run_id := "a" |}.

(** The server once the first run was registered as version 1 of the model. *)
Definition registered_world : World :=
  {| environ := ∅; secretsmanager := ∅;
     server := {| experiments := experiments example_server; runs := runs example_server;
                  registered_models := {[ "california-housing-model" := [example_version] ]} |};
     endpoints := ∅; disk := ∅; s3 := ∅; stdout := [] |}.

(** Models that answer with the first feature of the row. *)
Definition example_serve (ms : list ModelConfig) (body : SplitJson) : list Q :=
  match js_data body with
  | (x :: _) :: _ => [x]
  | _ => []
  end.

(** A model that answers with the first feature of each row. *)
Definition example_model (source : string) (df : DataFrame) : list Q :=
  omap head (values df).

(** A table of 8 rows. *)
Definition rows8 : list (list Q) := (fun i => repeat (inject_Z (Z.of_nat i)) 8) <$> seq 0 8.
Definition prices8 : list Q := (fun i => inject_Z (Z.of_nat (10 * i))) <$> seq 0 8.

(** A server that has another experiment, with one run, and not the one of
    the notebook. *)
Definition fresh_world : World :=
  {| environ := ∅; secretsmanager := ∅;
     server :=
       {| experiments := [ {| exp_id := 4; exp_name := "iris" |} ];
          runs := [ {| info := {| run_uuid := "i"; experiment_id := 4; status := FINISHED;
                                  start_time := 50%Z; artifact_uri := "s3://artifacts/4/i/artifacts";
                                  lifecycle_stage := active |};
                       metrics := [] |} ];
          registered_models := ∅ |};
     endpoints := ∅; disk := ∅; s3 := ∅; stdout := [] |}.

End Examples.
Import Examples.

(** * Properties *)

(** ** The stack *)

Section StackProperties.
Import Cdk.

Lemma stack_of_vpc (vpc : Vpc) (s : Subnet) (rest : list Subnet) :
  publicSubnets vpc = s :: rest ->
  SageMakerNotebookInstance vpc
  = Ok [IamRole sagemakerExecutionRole; NotebookInstance (notebook vpc (subnetId s))].
Proof.
  intros Hsub. unfold SageMakerNotebookInstance, first_public_subnet_id.
  now rewrite Hsub.
Qed.

(** X1. A network without a public subnet has no stack: reading the
    identifier of its first public subnet throws. *)
Lemma stack_without_subnet (vpc : Vpc) :
  publicSubnets vpc = [] -> SageMakerNotebookInstance vpc = Raise TypeError.
Proof.
  intros Hsub. unfold SageMakerNotebookInstance, first_public_subnet_id.
  now rewrite Hsub.
Qed.

Lemma stack_without_subnet_witness :
  SageMakerNotebookInstance {| publicSubnets := []; vpcDefaultSecurityGroup := "sg-default" |}
  = Raise TypeError.
Proof. apply stack_without_subnet. reflexivity. Defined.

(** C9. For a network with a public subnet the stack holds exactly two
    constructs, one execution role and one notebook instance.  The role is
    assumed by SageMaker, carries the managed policies
    AmazonSageMakerFullAccess and AmazonEC2ContainerRegistryFullAccess, and
    one inline policy allowing, on every resource, exactly s3:ListBucket,
    s3:GetObject, s3:PutObject, s3:DeleteObject and s3:PutObjectTagging.
    The notebook runs under that role, in the first public subnet of the
    network and in its default security group. *)
Theorem stack_has_one_role_and_one_notebook (vpc : Vpc) :
  publicSubnets vpc <> [] ->
  exists stack role nb subnet,
    SageMakerNotebookInstance vpc = Ok stack
    /\ List.length stack = 2
    /\ roles stack = [role]
    /\ notebooks stack = [nb]
    /\ assumedBy role = Service "sagemaker.amazonaws.com"
    /\ managedPolicies role
       = [fromAwsManagedPolicyName "AmazonSageMakerFullAccess";
          fromAwsManagedPolicyName "AmazonEC2ContainerRegistryFullAccess"]
    /\ inlinePolicies role
       = [("s3Buckets",
           {| statements :=
                [{| effect := ALLOW; resources := ["*"];
                    actions := ["s3:ListBucket"; "s3:GetObject"; "s3:PutObject";
                                "s3:DeleteObject"; "s3:PutObjectTagging"] |}] |})]
    /\ allowed_actions role
       = ["s3:ListBucket"; "s3:GetObject"; "s3:PutObject";
          "s3:DeleteObject"; "s3:PutObjectTagging"]
    /\ nb_roleArn nb = roleArn role
    /\ publicSubnets vpc !! 0 = Some subnet
    /\ nb_subnetId nb = subnetId subnet
    /\ securityGroupIds nb = [vpcDefaultSecurityGroup vpc].
Proof.
  intros Hne. destruct (publicSubnets vpc) as [|s rest] eqn:Hsub; [congruence|].
  exists [IamRole sagemakerExecutionRole; NotebookInstance (notebook vpc (subnetId s))],
         sagemakerExecutionRole, (notebook vpc (subnetId s)), s.
  rewrite (stack_of_vpc vpc s rest Hsub).
  repeat split.
Qed.

Lemma stack_has_one_role_and_one_notebook_witness :
  exists stack role nb subnet,
    SageMakerNotebookInstance example_vpc = Ok stack
    /\ List.length stack = 2
    /\ roles stack = [role]
    /\ notebooks stack = [nb]
    /\ assumedBy role = Service "sagemaker.amazonaws.com"
    /\ managedPolicies role
       = [fromAwsManagedPolicyName "AmazonSageMakerFullAccess";
          fromAwsManagedPolicyName "AmazonEC2ContainerRegistryFullAccess"]
    /\ inlinePolicies role
       = [("s3Buckets",
           {| statements :=
                [{| effect := ALLOW; resources := ["*"];
                    actions := ["s3:ListBucket"; "s3:GetObject"; "s3:PutObject";
                                "s3:DeleteObject"; "s3:PutObjectTagging"] |}] |})]
    /\ allowed_actions role
       = ["s3:ListBucket"; "s3:GetObject"; "s3:PutObject";
          "s3:DeleteObject"; "s3:PutObjectTagging"]
    /\ nb_roleArn nb = roleArn role
    /\ publicSubnets example_vpc !! 0 = Some subnet
    /\ nb_subnetId nb = subnetId subnet
    /\ securityGroupIds nb = [vpcDefaultSecurityGroup example_vpc].
Proof.
  apply (stack_has_one_role_and_one_notebook example_vpc).
  discriminate.
Defined.

End StackProperties.

(** ** Metric extraction *)

Section RegexProperties.
Import Re SageMaker Notebook MetricPattern.

Lemma append_cons (x : ascii) (a b : string) : String x a +:+ b = String x (a +:+ b).
Proof. reflexivity. Qed.

Lemma length_append (a b : string) :
  String.length (a +:+ b) = String.length a + String.length b.
Proof. induction a as [|x a IH]; [reflexivity|]. rewrite append_cons. simpl. now rewrite IH. Qed.

Lemma substring_whole (s : string) : String.substring 0 (String.length s) s = s.
Proof. induction s as [|x s IH]; [reflexivity|]. simpl. now rewrite IH. Qed.

Lemma substring_head (v s : string) : String.substring 0 (String.length v) (v +:+ s) = v.
Proof.
  induction v as [|x v IH].
  - now destruct s.
  - rewrite append_cons. simpl. now rewrite IH.
Qed.

Lemma consumed_app (v s : string) : consumed (v +:+ s) s = v.
Proof.
  unfold consumed. rewrite length_append.
  replace (String.length v + String.length s - String.length s) with (String.length v) by lia.
  apply substring_head.
Qed.

Lemma consumed_all (s : string) : consumed s "" = s.
Proof.
  unfold consumed. simpl. rewrite Nat.sub_0_r. apply substring_whole.
Qed.

Lemma strip_prefix_app (p s : string) : strip_prefix p (p +:+ s) = Some s.
Proof.
  induction p as [|x p IH]; [now destruct s|].
  rewrite append_cons. simpl. now rewrite Ascii.eqb_refl.
Qed.

Lemma strip_prefix_Some (p s s' : string) : strip_prefix p s = Some s' -> s = p +:+ s'.
Proof.
  revert s. induction p as [|x p IH]; intros s H.
  - destruct s; simpl in H; now inversion H.
  - destruct s as [|y s]; simpl in H; [discriminate|].
    destruct (Ascii.eqb_spec x y) as [->|]; [|discriminate].
    rewrite append_cons. now rewrite (IH s H).
Qed.

(** The matcher only looks at what its continuation returns. *)
Lemma star_loop_ext step (Hstep : forall s caps k1 k2,
      (forall s' caps', k1 s' caps' = k2 s' caps') -> step s caps k1 = step s caps k2)
    fuel s caps k1 k2 :
  (forall s' caps', k1 s' caps' = k2 s' caps') ->
  star_loop step fuel s caps k1 = star_loop step fuel s caps k2.
Proof.
  revert s caps. induction fuel as [|fuel IH]; intros s caps Hk; simpl; [apply Hk|].
  rewrite (Hstep s caps _ (fun s' caps' =>
    if (String.length s' <? String.length s)%nat then star_loop step fuel s' caps' k2 else None)).
  - now rewrite Hk.
  - intros s' caps'. destruct (String.length s' <? String.length s)%nat; [now apply IH|reflexivity].
Qed.

Lemma matches_ext r : forall s caps k1 k2,
  (forall s' caps', k1 s' caps' = k2 s' caps') ->
  matches r s caps k1 = matches r s caps k2.
Proof.
  induction r as [| c | | neg rs | | r1 IH1 r2 IH2 | i r IH | r IH | r IH];
    intros s caps k1 k2 Hk; simpl.
  - apply Hk.
  - destruct s as [|c' s]; [reflexivity|]. destruct (Ascii.eqb c c'); [apply Hk|reflexivity].
  - destruct s as [|c' s]; [reflexivity|]. destruct (Ascii.eqb c' newline); [reflexivity|apply Hk].
  - destruct s as [|c' s]; [reflexivity|]. destruct (xorb neg (in_ranges c' rs)); [apply Hk|reflexivity].
  - destruct (_ || _); [apply Hk|reflexivity].
  - apply IH1. intros s' caps'. now apply IH2.
  - apply IH. intros s' caps'. apply Hk.
  - apply star_loop_ext; [exact IH|exact Hk].
  - apply IH. intros s' caps'. apply star_loop_ext; [exact IH|exact Hk].
Qed.

(** A literal text matches where the subject starts with it. *)
Lemma matches_lits l : forall acc s caps k,
  matches (lits acc l) s caps k
  = matches acc s caps (fun s' caps' =>
      match strip_prefix l s' with
      | Some s'' => k s'' caps'
      | None => None
      end).
Proof.
  induction l as [|c l IH]; intros acc s caps k; simpl.
  - apply matches_ext. intros s' caps'. now destruct s'.
  - rewrite IH. simpl. apply matches_ext. intros s' caps'.
    destruct s' as [|c' s']; [reflexivity|].
    now destruct (Ascii.eqb c c').
Qed.

Lemma compile_metric_regex d :
  d ∈ metric_definitions -> compile (Regex d) = Some metric_regex.
Proof. intros Hd. apply list_elem_of_singleton in Hd. now subst d. Qed.

(** A greedy loop whose rounds take one character each, those that satisfy
    [p]: it stops within the leading run of such characters. *)
Section CharLoop.
Variable p : ascii -> bool.
Variable step : string -> captures -> cont -> option captures.
Hypothesis step_char : forall s caps k,
  step s caps k = match s with
                  | String c s' => if p c then k s' caps else None
                  | EmptyString => None
                  end.

Lemma char_loop_inv fuel : forall s caps k m,
  star_loop step fuel s caps k = Some m ->
  exists v s', s = v +:+ s' /\ all_chars p v = true /\ k s' caps = Some m.
Proof.
  induction fuel as [|fuel IH]; intros s caps k m H; simpl in H.
  - exists "", s. auto.
  - rewrite step_char in H. destruct s as [|c s].
    + exists "", "". auto.
    + destruct (p c) eqn:Hc; [|exists "", (String c s); auto].
      destruct (String.length s <? String.length (String c s))%nat;
        [|exists "", (String c s); auto].
      destruct (star_loop step fuel s caps k) as [m'|] eqn:Hloop;
        [|exists "", (String c s); auto].
      inversion H; subst m'. destruct (IH _ _ _ _ Hloop) as (v & s' & -> & Hv & Hk).
      exists (String c v), s'. repeat split; [|exact Hk]. simpl. now rewrite Hc.
Qed.

(** It reaches the end of a text made of such characters, when the rest
    of the pattern matches there. *)
Lemma char_loop_all fuel : forall s caps k m,
  all_chars p s = true ->
  (String.length s <= fuel)%nat ->
  k "" caps = Some m ->
  star_loop step fuel s caps k = Some m.
Proof.
  induction fuel as [|fuel IH]; intros s caps k m Hs Hlen Hk.
  - destruct s; simpl in Hlen; [exact Hk|lia].
  - simpl. rewrite step_char. destruct s as [|c s]; [now rewrite Hk|].
    simpl in Hs. apply andb_prop in Hs as [Hc Hs]. rewrite Hc.
    replace (String.length s <? String.length (String c s))%nat with true
      by (symmetry; apply Nat.ltb_lt; simpl; lia).
    now rewrite (IH s caps k m Hs ltac:(simpl in Hlen; lia) Hk).
Qed.
End CharLoop.

Lemma number_step s caps k :
  matches number_set s caps k
  = match s with
    | String c s' => if digit_or_dot c then k s' caps else None
    | EmptyString => None
    end.
Proof. now destruct s. Qed.

Lemma any_step s caps k :
  matches any_char s caps k
  = match s with
    | String c s' => if not_newline c then k s' caps else None
    | EmptyString => None
    end.
Proof.
  destruct s as [|c s]; [reflexivity|]. unfold not_newline. simpl.
  now destruct (Ascii.eqb c newline).
Qed.

(** What a match of the pattern at the head of [s] looks like. *)
Lemma metric_regex_match (s : string) (m : captures) :
  matches metric_regex s ∅ (fun _ caps => Some caps) = Some m ->
  exists v post, s = label +:+ v +:+ post /\ v <> "" /\ all_chars digit_or_dot v = true
                 /\ group m 1 = Some v.
Proof.
  unfold metric_regex. cbn [matches]. rewrite matches_lits. cbn [matches].
  destruct (strip_prefix label s) as [s1|] eqn:Hpre; [|discriminate].
  apply strip_prefix_Some in Hpre. subst s.
  destruct s1 as [|c s1]; [discriminate|].
  rewrite number_step.
  destruct (digit_or_dot c) eqn:Hc; [|discriminate].
  intros H.
  apply (char_loop_inv _ _ number_step) in H as (v & s' & -> & Hv & H).
  apply (char_loop_inv _ _ any_step) in H as (v' & s'' & _ & _ & H).
  destruct (_ || _) in H; [|discriminate]. inversion H; subst m; clear H.
  exists (String c v), s'. repeat split.
  - discriminate.
  - simpl. now rewrite Hc.
  - unfold group. rewrite <- append_cons, consumed_app.
    apply (lookup_insert_eq (M := gmap nat)).
Qed.

Lemma search_inv r : forall s m,
  search r s = Some m ->
  exists pre s', s = pre +:+ s' /\ matches r s' ∅ (fun _ caps => Some caps) = Some m.
Proof.
  induction s as [|c s IH]; intros m H; simpl in H.
  - destruct (matches r "" ∅ _) eqn:Hm; [|discriminate]. inversion H; subst. exists "", "". auto.
  - destruct (matches r (String c s) ∅ _) eqn:Hm.
    + inversion H; subst. exists "", (String c s). auto.
    + destruct (IH _ H) as (pre & s' & -> & Hs'). exists (String c pre), s'. auto.
Qed.

Lemma search_head r s m :
  matches r s ∅ (fun _ caps => Some caps) = Some m -> search r s = Some m.
Proof. intros H. destruct s; simpl; now rewrite H. Qed.

(** A line made of the label and a run of digits and dots matches at its
    head, and the group is the run. *)
Lemma metric_regex_number (num : string) :
  num <> "" -> all_chars digit_or_dot num = true ->
  matches metric_regex (label +:+ num) ∅ (fun _ caps => Some caps)
  = Some (<[1 := num]> ∅).
Proof.
  intros Hne Hnum. unfold metric_regex. cbn [matches]. rewrite matches_lits. cbn [matches].
  rewrite strip_prefix_app. destruct num as [|c num]; [congruence|].
  rewrite number_step. simpl in Hnum. apply andb_prop in Hnum as [Hc Hnum]. rewrite Hc.
  apply (char_loop_all _ _ number_step); [exact Hnum|lia|].
  simpl. now rewrite consumed_all.
Qed.

(** A greedy loop ends in a match when what follows matches where it starts. *)
Lemma star_loop_some step fuel s caps k :
  is_Some (k s caps) -> is_Some (star_loop step fuel s caps k).
Proof.
  intros Hk. destruct fuel as [|fuel]; simpl; [exact Hk|].
  destruct (step s caps _); [eauto|exact Hk].
Qed.

(** [.*$] matches what is left of a line. *)
Lemma rest_of_line (s : string) (caps : captures) :
  all_chars not_newline s = true ->
  matches (Star any_char) s caps
    (fun s' caps' => matches End_ s' caps' (fun _ c => Some c)) = Some caps.
Proof.
  intros Hs. cbn [matches].
  apply (char_loop_all _ _ any_step); [exact Hs|lia|reflexivity].
Qed.

(** The pattern matches at the label when digits or dots follow it and the
    line goes on without a line break. *)
Lemma metric_regex_found (v post : string) :
  v <> "" -> all_chars digit_or_dot v = true -> all_chars not_newline (v +:+ post) = true ->
  is_Some (matches metric_regex (label +:+ v +:+ post) ∅ (fun _ caps => Some caps)).
Proof.
  intros Hne Hv Hline. unfold metric_regex. cbn [matches]. rewrite matches_lits. cbn [matches].
  rewrite strip_prefix_app. destruct v as [|c v]; [congruence|].
  rewrite append_cons, number_step. simpl in Hv. apply andb_prop in Hv as [Hc Hv]. rewrite Hc.
  apply star_loop_some.
  rewrite append_cons in Hline. simpl in Hline. apply andb_prop in Hline as [_ Hline].
  pose proof (rest_of_line (v +:+ post)
                (<[1 := consumed (String c (v +:+ post)) (v +:+ post)]> ∅) Hline) as Hrest.
  cbn [matches] in Hrest. rewrite Hrest. eauto.
Qed.

Lemma search_some r (pre s : string) :
  is_Some (matches r s ∅ (fun _ caps => Some caps)) -> is_Some (search r (pre +:+ s)).
Proof.
  intros [m Hm]. induction pre as [|c pre IH].
  - exists m. now apply search_head.
  - rewrite append_cons. simpl. destruct (matches r (String c (pre +:+ s)) ∅ _); [eauto|exact IH].
Qed.

Lemma search_metric_regex (line : string) (m : captures) :
  search metric_regex line = Some m ->
  exists pre v post, line = pre +:+ label +:+ v +:+ post
                     /\ v <> "" /\ all_chars digit_or_dot v = true /\ group m 1 = Some v.
Proof.
  intros Hs. apply search_inv in Hs as (pre & s' & -> & Hm).
  apply metric_regex_match in Hm as (v & post & -> & Hne & Hv & Hg).
  exists pre, v, post. auto.
Qed.

(** C7, as amended.  For the metric definition of the notebook: a line made
    of the label [AE-at-50th-percentile: ] and a non-empty run of digits and
    dots yields exactly that run; whenever a line yields a value, the line
    holds the label somewhere, the value follows it at once, and the value
    is a non-empty run of digits and dots, whatever comes before the label
    and after the value; and a line that holds the label followed by a digit
    or a dot, and no line break after it, does yield a value.  So a line
    yields nothing exactly when it does not hold the label followed by a
    digit or a dot. *)
Theorem metric_value_is_the_run_after_the_label (d : MetricDefinition) :
  d ∈ metric_definitions ->
  (forall num, num <> "" -> all_chars digit_or_dot num = true ->
               metric_value d (label +:+ num) = Some num)
  /\ (forall line v, metric_value d line = Some v ->
        exists pre post, line = pre +:+ label +:+ v +:+ post
                         /\ v <> "" /\ all_chars digit_or_dot v = true)
  /\ (forall pre v post,
        v <> "" -> all_chars digit_or_dot v = true ->
        all_chars not_newline (v +:+ post) = true ->
        exists v', metric_value d (pre +:+ label +:+ v +:+ post) = Some v').
Proof.
  intros Hd. unfold metric_value. rewrite (compile_metric_regex d Hd). split; [|split].
  - intros num Hne Hnum.
    rewrite (search_head _ _ _ (metric_regex_number num Hne Hnum)).
    apply (lookup_insert_eq (M := gmap nat)).
  - intros line v H.
    destruct (search metric_regex line) as [m|] eqn:Hs; [|discriminate].
    apply search_metric_regex in Hs as (pre & v' & post & -> & Hne & Hv & Hg).
    rewrite Hg in H. inversion H; subst v'. exists pre, post. auto.
  - intros pre v post Hne Hv Hline.
    destruct (search_some metric_regex pre _ (metric_regex_found v post Hne Hv Hline))
      as [m Hs].
    rewrite Hs. apply search_metric_regex in Hs as (_ & v' & _ & _ & _ & _ & Hg). eauto.
Qed.

Lemma metric_value_is_the_run_after_the_label_witness :
  example_metric ∈ metric_definitions
  /\ metric_value example_metric (label +:+ "0.35") = Some "0.35"
  /\ (exists pre post,
        "INFO AE-at-50th-percentile: 0.5 (test)" = pre +:+ label +:+ "0.5" +:+ post
        /\ "0.5" <> "" /\ all_chars digit_or_dot "0.5" = true).
Proof.
  assert (Hd : example_metric ∈ metric_definitions)
    by (apply list_elem_of_singleton; reflexivity).
  destruct (metric_value_is_the_run_after_the_label example_metric Hd) as (Hnum & Hany & _).
  split; [exact Hd|]. split.
  - apply Hnum; [discriminate|reflexivity].
  - apply Hany. vm_compute. reflexivity.
Defined.

(** C7, as stated, fails twice.  A line of the stated format whose number is
    written with an exponent yields the digits before the exponent, not the
    number; and a line that is not of the format (text before the label and
    after the number) yields a value all the same. *)
Lemma metric_value_counterexample :
  example_metric ∈ metric_definitions
  /\ metric_value example_metric "AE-at-50th-percentile: 1e-05" = Some "1"
  /\ strip_prefix label "INFO AE-at-50th-percentile: 0.5 (test)" = None
  /\ metric_value example_metric "INFO AE-at-50th-percentile: 0.5 (test)" = Some "0.5".
Proof.
  split; [apply list_elem_of_singleton; reflexivity|].
  repeat split; vm_compute; reflexivity.
Qed.

End RegexProperties.

(** ** The split of the dataset *)

Section SplitProperties.
Import Pandas Sklearn Notebook.

Variable permutation : Z -> nat -> list nat.
Hypothesis permutation_spec : forall seed n, permutation seed n ≡ₚ seq 0 n.

Lemma n_test_is_ceiling (n : nat) :
  Z.to_nat (Qceiling (test_size * inject_Z (Z.of_nat n))) = (n + 3) / 4.
Proof.
  unfold Qceiling, Qfloor, test_size. cbn [Qmult Qopp Qnum Qden inject_Z].
  change (Z.pos (100 * 1)) with 100%Z.
  pose proof (Nat.div_mod_eq (n + 3) 4) as Hq.
  pose proof (Nat.mod_upper_bound (n + 3) 4 ltac:(lia)) as Hr.
  revert Hq Hr. generalize ((n + 3) / 4) ((n + 3) mod 4). intros q r Hq Hr.
  zify. Z.div_mod_to_equations. lia.
Qed.

Lemma ceiling_bounds (n : nat) :
  n <= 4 * ((n + 3) / 4) /\ 4 * ((n + 3) / 4) < n + 4 /\ (2 <= n -> (n + 3) / 4 < n).
Proof.
  pose proof (Nat.div_mod_eq (n + 3) 4) as Hq.
  pose proof (Nat.mod_upper_bound (n + 3) 4 ltac:(lia)) as Hr.
  revert Hq Hr. generalize ((n + 3) / 4) ((n + 3) mod 4). intros q r Hq Hr. lia.
Qed.

Lemma validate_sizes (n : nat) :
  2 <= n -> validate_shuffle_split n test_size = Ok (n - (n + 3) / 4, (n + 3) / 4).
Proof.
  intros Hn. unfold validate_shuffle_split. rewrite n_test_is_ceiling.
  change (Qle_bool test_size 0 || Qle_bool 1 test_size) with false. cbv iota.
  destruct (ceiling_bounds n) as (_ & _ & Hlt). specialize (Hlt Hn).
  destruct (Nat.eqb_spec (n - (n + 3) / 4) 0); [lia|reflexivity].
Qed.

(** The two parts are the shuffle, cut after the test rows. *)
Lemma split_indices_partition (n : nat) (seed : Z) :
  2 <= n ->
  exists train test,
    split_indices permutation n test_size seed = Ok (train, test)
    /\ test ++ train = permutation seed n
    /\ List.length test = (n + 3) / 4
    /\ List.length train = n - (n + 3) / 4.
Proof.
  intros Hn. unfold split_indices. rewrite (validate_sizes n Hn).
  assert (Hlen : List.length (permutation seed n) = n).
  { rewrite (Permutation_length (permutation_spec seed n)). apply length_seq. }
  destruct (ceiling_bounds n) as (_ & _ & Hlt). specialize (Hlt Hn).
  eexists _, _. split; [reflexivity|].
  rewrite (take_ge (List.skipn _ _)) by (rewrite length_drop; lia).
  rewrite take_drop, length_take, length_drop. repeat split; lia.
Qed.

Lemma safe_indexing_lookup {A} (a : list A) (idx : list nat) :
  Forall (fun i => i < List.length a) idx ->
  exists l, safe_indexing a idx = Ok l /\ Forall2 (fun i x => a !! i = Some x) idx l.
Proof.
  intros Hidx. unfold safe_indexing.
  destruct (mapM (fun i => a !! i) idx) as [l|] eqn:Hm.
  - exists l. split; [reflexivity|]. now apply mapM_Some_1.
  - exfalso. assert (His : is_Some (mapM (fun i => a !! i) idx)).
    { apply mapM_is_Some. eapply Forall_impl; [exact Hidx|].
      intros i Hi. now apply lookup_lt_is_Some_2. }
    rewrite Hm in His. now destruct His.
Qed.

Lemma lookup_zip {A B C} (f : A -> B -> C) (X : list A) (y : list B) idx xs ys :
  Forall2 (fun i x => X !! i = Some x) idx xs ->
  Forall2 (fun i v => y !! i = Some v) idx ys ->
  Forall2 (fun i r => zip_with f X y !! i = Some r) idx (zip_with f xs ys).
Proof.
  intros HX. revert ys. induction HX as [|i x idx xs Hx HX IH]; intros ys Hy.
  - inversion Hy. constructor.
  - inversion Hy as [|? v ? ys' Hv Hy']; subst. simpl. constructor; [|now apply IH].
    rewrite lookup_zip_with, Hx. simpl. now rewrite Hv.
Qed.

Lemma lookup_all {A} (l l' : list A) :
  Forall2 (fun i r => l !! i = Some r) (seq 0 (List.length l)) l' -> l' = l.
Proof.
  intros H. apply list_eq. intros j.
  destruct (decide (j < List.length l)) as [Hj|Hj].
  - pose proof (lookup_seq_lt 0 (List.length l) j Hj) as Hs.
    destruct (Forall2_lookup_l _ _ _ _ _ H Hs) as (r & Hr & Hl).
    simpl in Hl. now rewrite Hr, Hl.
  - rewrite (lookup_ge_None_2 l) by lia. apply lookup_ge_None_2.
    rewrite <- (Forall2_length _ _ _ H), length_seq. lia.
Qed.

Lemma lookup_permutation {A} (l : list A) idx rs :
  Forall2 (fun i r => l !! i = Some r) idx rs ->
  idx ≡ₚ seq 0 (List.length l) -> rs ≡ₚ l.
Proof.
  intros H Hp. destruct (Permutation_Forall2 Hp H) as (rs' & Hrs & H').
  now rewrite Hrs, (lookup_all _ _ H').
Qed.

Lemma widths_kept (X : list (list Q)) idx xs w :
  Forall (fun r => List.length r = w) X ->
  Forall2 (fun i x => X !! i = Some x) idx xs ->
  forallb (fun r => Nat.eqb (List.length r) w) xs = true.
Proof.
  intros HX H. apply forallb_forall. intros r Hr.
  apply list_elem_of_In in Hr. apply list_elem_of_lookup in Hr as [j Hj].
  destruct (Forall2_lookup_r _ _ _ _ _ H Hj) as (i & _ & Hi).
  apply Nat.eqb_eq. apply list_elem_of_lookup_2 in Hi.
  now apply (proj1 (Forall_forall _ _) HX).
Qed.

(** C1. On a dataset of at least two rows, whatever the shuffle the seed
    gives, the data preparation succeeds and cuts the table in two parts:
    the row numbers of the parts are disjoint and together are all the row
    numbers, each part holds the rows of its numbers, the two parts
    together are the table up to order, the test part has ceil(n/4) rows
    (so its share is 0.25, rounded up to a whole row), a table of 100 rows
    gives 75 and 25, and the result depends on the generator only through
    the shuffle it gives for the seed 42. *)
Theorem train_test_partition (rows : list (list Q)) (prices : list Q) :
  2 <= List.length rows ->
  List.length prices = List.length rows ->
  Forall (fun r => List.length r = 8) rows ->
  let data := fetch_california_housing rows prices in
  let n := List.length rows in
  exists trainX testX y_test train test,
    data_preparation permutation data = Ok (trainX, testX, y_test)
    /\ train ++ test ≡ₚ seq 0 n
    /\ (forall i, i ∈ train -> i ∉ test)
    /\ Forall2 (fun i r => table data !! i = Some r) train (values trainX)
    /\ Forall2 (fun i r => table data !! i = Some r) test (values testX)
    /\ values trainX ++ values testX ≡ₚ table data
    /\ List.length (values testX) = (n + 3) / 4
    /\ List.length (values trainX) + List.length (values testX) = n
    /\ n <= 4 * List.length (values testX) < n + 4
    /\ (n = 100 -> List.length (values trainX) = 75 /\ List.length (values testX) = 25)
    /\ (forall permutation' : Z -> nat -> list nat,
          permutation' random_state n = permutation random_state n ->
          data_preparation permutation' data = data_preparation permutation data).
Proof.
  intros Hn Hprices Hwidth. cbv zeta. set (n := List.length rows) in *.
  destruct (split_indices_partition n random_state Hn)
    as (train & test & Hsplit & Hcut & Hltest & Hltrain).
  assert (Hperm : train ++ test ≡ₚ seq 0 n).
  { rewrite Permutation_app_comm, Hcut. apply permutation_spec. }
  assert (Hbound : Forall (fun i => i < n) (train ++ test)).
  { apply Forall_forall. intros i Hi. rewrite Hperm in Hi.
    apply elem_of_seq in Hi. lia. }
  apply Forall_app in Hbound as [Hbtrain Hbtest].
  destruct (safe_indexing_lookup rows train Hbtrain) as (X_train & HXtr & HXtr2).
  destruct (safe_indexing_lookup rows test Hbtest) as (X_test & HXte & HXte2).
  assert (Hbtrain' : Forall (fun i => i < List.length prices) train) by now rewrite Hprices.
  assert (Hbtest' : Forall (fun i => i < List.length prices) test) by now rewrite Hprices.
  destruct (safe_indexing_lookup prices train Hbtrain') as (y_train & Hytr & Hytr2).
  destruct (safe_indexing_lookup prices test Hbtest') as (y_test & Hyte & Hyte2).
  pose proof (Forall2_length _ _ _ HXtr2) as LXtr.
  pose proof (Forall2_length _ _ _ HXte2) as LXte.
  pose proof (Forall2_length _ _ _ Hytr2) as Lytr.
  pose proof (Forall2_length _ _ _ Hyte2) as Lyte.
  assert (Hprep : forall p, p random_state n = permutation random_state n ->
    data_preparation p (fetch_california_housing rows prices)
    = Ok ({| columns := feature_names (fetch_california_housing rows prices) ++ ["target"];
             index := seq 0 (List.length X_train);
             values := zip_with (fun r v => r ++ [v]) X_train y_train |},
          {| columns := feature_names (fetch_california_housing rows prices) ++ ["target"];
             index := seq 0 (List.length X_test);
             values := zip_with (fun r v => r ++ [v]) X_test y_test |},
          y_test)).
  { intros p Hp. unfold data_preparation, train_test_split. cbn [Sklearn.data target fetch_california_housing].
    fold n. rewrite Hprices, Nat.eqb_refl. cbn [negb].
    replace (split_indices p n test_size random_state)
      with (split_indices permutation n test_size random_state)
      by (unfold split_indices; now rewrite Hp).
    rewrite Hsplit, HXtr, HXte, Hytr, Hyte.
    unfold DataFrame_of. cbn [feature_names fetch_california_housing List.length].
    rewrite (widths_kept rows train X_train 8 Hwidth HXtr2).
    rewrite (widths_kept rows test X_test 8 Hwidth HXte2).
    unfold setitem. cbn [values columns index].
    replace (List.length y_train) with (List.length X_train) by lia.
    replace (List.length y_test) with (List.length X_test) by lia.
    rewrite !Nat.eqb_refl. reflexivity. }
  eexists _, _, y_test, train, test.
  split; [apply Hprep; reflexivity|]. cbn [values].
  assert (Htr : Forall2 (fun i r => table (fetch_california_housing rows prices) !! i = Some r) train
                  (zip_with (fun r v => r ++ [v]) X_train y_train))
    by (apply lookup_zip; assumption).
  assert (Hte : Forall2 (fun i r => table (fetch_california_housing rows prices) !! i = Some r) test
                  (zip_with (fun r v => r ++ [v]) X_test y_test))
    by (apply lookup_zip; assumption).
  assert (Ltable : List.length (table (fetch_california_housing rows prices)) = n).
  { unfold table. rewrite length_zip_with. cbn [Sklearn.data target fetch_california_housing]. lia. }
  rewrite !length_zip_with.
  destruct (ceiling_bounds n) as (Hlo & Hhi & Hlt). specialize (Hlt Hn).
  split; [exact Hperm|]. split.
  { intros i Hi Hi'. assert (Hnd : NoDup (train ++ test)) by (rewrite Hperm; apply NoDup_seq).
    apply NoDup_app in Hnd as (_ & Hdis & _). exact (Hdis i Hi Hi'). }
  split; [exact Htr|]. split; [exact Hte|]. split.
  { apply (lookup_permutation (table (fetch_california_housing rows prices)) (train ++ test)).
    - now apply Forall2_app.
    - now rewrite Ltable. }
  split; [lia|]. split; [lia|]. split; [lia|]. split.
  { intros H100. rewrite H100 in *. change ((100 + 3) / 4) with 25 in *. lia. }
  intros p' Hp'. rewrite (Hprep p' Hp'). symmetry. apply Hprep. reflexivity.
Qed.
End SplitProperties.

Lemma reversal_spec (seed : Z) (n : nat) : reversal seed n ≡ₚ seq 0 n.
Proof. unfold reversal. symmetry. apply Permutation_rev. Qed.

Lemma train_test_partition_witness :
  exists trainX testX y_test,
    Notebook.data_preparation reversal (Sklearn.fetch_california_housing rows100 prices100)
    = Ok (trainX, testX, y_test)
    /\ List.length (Pandas.values trainX) = 75
    /\ List.length (Pandas.values testX) = 25
    /\ Pandas.values trainX ++ Pandas.values testX
       ≡ₚ Sklearn.table (Sklearn.fetch_california_housing rows100 prices100).
Proof.
  assert (H2 : 2 <= List.length rows100) by (vm_compute; lia).
  assert (Hp : List.length prices100 = List.length rows100) by reflexivity.
  assert (Hw : Forall (fun r : list Q => List.length r = 8) rows100).
  { unfold rows100. apply Forall_fmap, Forall_forall. intros i _. reflexivity. }
  destruct (train_test_partition reversal reversal_spec rows100 prices100 H2 Hp Hw)
    as (trainX & testX & y_test & train & test & Hrun & _ & _ & _ & _ & Hall & _ & _ & _ & H100 & _).
  exists trainX, testX, y_test.
  destruct (H100 eq_refl) as [Htrain Htest]. auto.
Defined.


(** ** Run selection *)

Section SortProperties.
Import Mlflow.
Context {A : Type} (le : A -> A -> bool).
Hypothesis le_total : forall a b, le a b = true \/ le b a = true.
Hypothesis le_trans : forall a b c, le a b = true -> le b c = true -> le a c = true.

Lemma insert_sorted_perm (x : A) (l : list A) : insert_sorted le x l ≡ₚ x :: l.
Proof.
  induction l as [|y l IH]; simpl; [reflexivity|].
  destruct (le x y); [reflexivity|]. rewrite IH. apply perm_swap.
Qed.

Lemma sort_by_perm (l : list A) : sort_by le l ≡ₚ l.
Proof.
  induction l as [|x l IH]; simpl; [reflexivity|].
  unfold sort_by in *. simpl. now rewrite insert_sorted_perm, IH.
Qed.

Lemma insert_sorted_ordered (x : A) (l : list A) :
  StronglySorted (fun a b => le a b = true) l ->
  StronglySorted (fun a b => le a b = true) (insert_sorted le x l).
Proof.
  induction l as [|y l IH]; intros Hs; simpl.
  - repeat constructor.
  - inversion Hs as [|? ? Hl Hy]; subst. destruct (le x y) eqn:Hxy.
    + constructor; [exact Hs|]. constructor; [exact Hxy|].
      eapply Forall_impl; [exact Hy|]. intros z Hz. now apply (le_trans x y z).
    + constructor; [now apply IH|].
      rewrite insert_sorted_perm. constructor; [|exact Hy].
      destruct (le_total x y) as [H|H]; [congruence|exact H].
Qed.

Lemma sort_by_ordered (l : list A) : StronglySorted (fun a b => le a b = true) (sort_by le l).
Proof.
  induction l as [|x l IH]; [constructor|].
  unfold sort_by in *. simpl. now apply insert_sorted_ordered.
Qed.

(** What a sort puts first is in the list and is below every element of it. *)
Lemma sort_by_first (l : list A) :
  match sort_by le l with
  | [] => l = []
  | h :: _ => h ∈ l /\ forall y, y ∈ l -> le h y = true
  end.
Proof.
  pose proof (sort_by_perm l) as Hp. pose proof (sort_by_ordered l) as Hs.
  destruct (sort_by le l) as [|h t].
  - now apply Permutation_nil in Hp.
  - split; [rewrite <- Hp; left|].
    intros y Hy. rewrite <- Hp in Hy. inversion Hs as [|? ? _ Hall]; subst.
    apply elem_of_cons in Hy as [->|Hy].
    + destruct (le_total h h); assumption.
    + now apply (proj1 (Forall_forall _ _) Hall).
Qed.
End SortProperties.

Section RunSelection.
Import Mlflow Notebook.

Lemma precedes_total c (a b : Run) : precedes c a b = true \/ precedes c b a = true.
Proof.
  unfold precedes. destruct (sort_value c.1 a) as [x|], (sort_value c.1 b) as [y|]; auto.
  destruct (Qlt_le_dec y x) as [H|H].
  - apply Qlt_le_weak in H. destruct c.2; [right|left]; now apply Qle_bool_iff.
  - destruct c.2; [left|right]; now apply Qle_bool_iff.
Qed.

Lemma precedes_trans c (a b d : Run) :
  precedes c a b = true -> precedes c b d = true -> precedes c a d = true.
Proof.
  unfold precedes.
  destruct (sort_value c.1 a) as [x|], (sort_value c.1 b) as [y|],
           (sort_value c.1 d) as [z|]; try congruence.
  destruct c.2; rewrite !Qle_bool_iff; intros H1 H2; eapply Qle_trans; eassumption.
Qed.

(** The answer to a query for one run, ordered by one clause: nothing when
    the experiment has no run, and otherwise one run of the experiment that
    precedes all the others. *)
Lemma search_one (sv : Server) (e : nat) (clause : string) (c : SortKey * Direction) :
  parse_order_by clause = Ok c ->
  exists found,
    search_runs sv e 1 [clause] = Ok found
    /\ match found with
       | [] => candidates sv e = []
       | [r] => r ∈ candidates sv e /\ forall r', r' ∈ candidates sv e -> precedes c r r' = true
       | _ => False
       end.
Proof.
  intros Hc. unfold search_runs. simpl. rewrite Hc. eexists. split; [reflexivity|].
  pose proof (sort_by_first (precedes c) (precedes_total c) (precedes_trans c)
                (sort_by (precedes (attribute_start_time, DESC)) (candidates sv e))) as H.
  pose proof (sort_by_perm (precedes (attribute_start_time, DESC)) (candidates sv e)) as Hp.
  cbn [foldr]. set (sorted := sort_by (precedes c) _) in *.
  destruct sorted as [|h t]; simpl.
  - rewrite H in Hp. now apply Permutation_nil in Hp.
  - destruct H as [Hin Hle]. destruct t; simpl; (rewrite Hp in Hin; split; [exact Hin|]);
      intros r' Hr'; apply Hle; now rewrite Hp.
Qed.

Lemma select_run_spec (w : World) (e : Experiment) (clause : string) (c : SortKey * Direction) :
  get_experiment_by_name (server w) experiment_name = Some e ->
  parse_order_by clause = Ok c ->
  match candidates (server w) (exp_id e) with
  | [] => select_run [clause] w = (Raise IndexError, w)
  | _ :: _ =>
      exists r, select_run [clause] w = (Ok r, w)
                /\ r ∈ candidates (server w) (exp_id e)
                /\ forall r', r' ∈ candidates (server w) (exp_id e) -> precedes c r r' = true
  end.
Proof.
  intros He Hc. unfold select_run. rewrite He.
  destruct (search_one (server w) (exp_id e) clause c Hc) as (found & -> & Hfound).
  destruct found as [|r [|r2 found]]; [| |contradiction].
  - now rewrite Hfound.
  - destruct Hfound as [Hin Hle].
    destruct (candidates (server w) (exp_id e)) as [|x l] eqn:Hcand; [inversion Hin|].
    exists r. auto.
Qed.

Lemma set_server_same (w : World) : set_server (server w) w = w.
Proof. now destruct w. Qed.

(** The runs a search ranges over, spelt out. *)
Lemma candidates_spec (sv : Server) (e : nat) (r : Run) :
  r ∈ candidates sv e
  <-> r ∈ runs sv /\ experiment_id (info r) = e /\ lifecycle_stage (info r) = active.
Proof.
  unfold candidates. rewrite !list_elem_of_In, filter_In, andb_true_iff, Nat.eqb_eq.
  unfold is_active. destruct (lifecycle_stage (info r)); intuition congruence.
Qed.

Lemma get_experiment_by_name_Some (sv : Server) (nm : string) (e : Experiment) :
  get_experiment_by_name sv nm = Some e -> e ∈ experiments sv /\ exp_name e = nm.
Proof.
  unfold get_experiment_by_name.
  destruct (list_find _ _) as [[i e']|] eqn:Hfind; [|discriminate].
  intros H. inversion H; subst. apply list_find_Some in Hfind as (Hi & Hname & _).
  split; [now apply list_elem_of_lookup_2 in Hi|exact Hname].
Qed.

Lemma get_experiment_by_name_None (sv : Server) (nm : string) :
  (forall e, e ∈ experiments sv -> exp_name e <> nm) -> get_experiment_by_name sv nm = None.
Proof.
  intros H. unfold get_experiment_by_name.
  destruct (list_find _ _) as [[i e]|] eqn:Hfind; [|reflexivity].
  apply list_find_Some in Hfind as (Hi & Hname & _).
  apply list_elem_of_lookup_2 in Hi. now destruct (H e Hi).
Qed.

(** C5. The query of the run selection asks for one run and gets at most
    one.  The experiment is the one of the name.  When it has runs that
    were not deleted, each selection returns one of them, the first under
    its sort key and direction: the latest run is one that no run of the
    experiment started after, and the best run is one that logged the
    metric with a value no run of the experiment logged a smaller one
    than, as soon as any run of the experiment logged the metric.  When
    the experiment has no run, or does not exist, the selection raises
    (IndexError, AttributeError): there is no default run, and the cell
    that registers the selected run stops there. *)
Theorem run_selection_one_or_fatal (w : World) :
  ((forall e, e ∈ experiments (server w) -> exp_name e <> experiment_name) ->
     latest_run w = (Raise AttributeError, w) /\ best_run w = (Raise AttributeError, w)
     /\ register_best_cell w = (Raise AttributeError, w))
  /\ (forall e, get_experiment_by_name (server w) experiment_name = Some e ->
        e ∈ experiments (server w) /\ exp_name e = experiment_name
        /\ (forall order_by found,
              search_runs (server w) (exp_id e) 1 order_by = Ok found -> List.length found <= 1)
        /\ ((forall r, r ∈ runs (server w) -> experiment_id (info r) = exp_id e ->
                       lifecycle_stage (info r) = deleted) ->
              latest_run w = (Raise IndexError, w) /\ best_run w = (Raise IndexError, w)
              /\ register_latest_cell w = (Raise IndexError, w)
              /\ register_best_cell w = (Raise IndexError, w))
        /\ ((exists r, r ∈ runs (server w) /\ experiment_id (info r) = exp_id e
                       /\ lifecycle_stage (info r) = active) ->
              exists latest best,
                latest_run w = (Ok latest, w)
                /\ latest ∈ runs (server w)
                /\ experiment_id (info latest) = exp_id e
                /\ lifecycle_stage (info latest) = active
                /\ (forall r, r ∈ runs (server w) -> experiment_id (info r) = exp_id e ->
                              lifecycle_stage (info r) = active ->
                              (start_time (info r) <= start_time (info latest))%Z)
                /\ best_run w = (Ok best, w)
                /\ best ∈ runs (server w)
                /\ experiment_id (info best) = exp_id e
                /\ lifecycle_stage (info best) = active
                /\ (forall r v', r ∈ runs (server w) -> experiment_id (info r) = exp_id e ->
                                 lifecycle_stage (info r) = active ->
                                 assoc "AE-at-50th-percentile" (metrics r) = Some v' ->
                                 exists v, assoc "AE-at-50th-percentile" (metrics best) = Some v
                                           /\ (v <= v')%Q))).
Proof.
  split.
  - intros Hnone. apply get_experiment_by_name_None in Hnone.
    unfold register_best_cell, bind, latest_run, best_run, select_run.
    now rewrite Hnone.
  - intros e He.
    pose proof (select_run_spec w e "attribute.start_time DESC"
                  (attribute_start_time, DESC) He eq_refl) as Hlatest.
    pose proof (select_run_spec w e "metrics.`AE-at-50th-percentile` ASC"
                  (metric "AE-at-50th-percentile", ASC) He eq_refl) as Hbest.
    fold latest_run in Hlatest. fold best_run in Hbest.
    destruct (get_experiment_by_name_Some _ _ _ He) as [Hin Hname].
    split; [exact Hin|]. split; [exact Hname|]. split; [|split].
    + intros order_by found Hfound. unfold search_runs in Hfound.
      destruct (parse_clauses order_by); [|discriminate].
      inversion Hfound; subst. rewrite length_take. lia.
    + intros Hnone.
      assert (Hnil : candidates (server w) (exp_id e) = []).
      { destruct (candidates (server w) (exp_id e)) as [|x l] eqn:Hcand; [reflexivity|].
        assert (Hx : x ∈ candidates (server w) (exp_id e)) by (rewrite Hcand; left).
        apply candidates_spec in Hx as (Hx & Hexp & Hact).
        rewrite (Hnone x Hx Hexp) in Hact. discriminate. }
      rewrite Hnil in Hlatest, Hbest.
      unfold register_latest_cell, register_best_cell, bind.
      assert (Hset : set_experiment (server w) experiment_name = server w)
        by (unfold set_experiment; now rewrite He).
      now rewrite Hset, set_server_same, Hlatest, Hbest.
    + intros (r0 & Hr0). apply candidates_spec in Hr0.
      destruct (candidates (server w) (exp_id e)) as [|x l] eqn:Hcand; [inversion Hr0|].
      rewrite <- Hcand in *.
      destruct Hlatest as (latest & Hl & Hlin & Hlle). destruct Hbest as (best & Hb & Hbin & Hble).
      apply candidates_spec in Hlin as (Hl1 & Hl2 & Hl3).
      apply candidates_spec in Hbin as (Hb1 & Hb2 & Hb3).
      exists latest, best. repeat split; try assumption.
      * intros r Hr Hexp Hact.
        assert (Hc : r ∈ candidates (server w) (exp_id e)) by now apply candidates_spec.
        specialize (Hlle r Hc). unfold precedes in Hlle. simpl in Hlle.
        apply Qle_bool_iff in Hlle. now rewrite Zle_Qle.
      * intros r v' Hr Hexp Hact Hv'.
        assert (Hc : r ∈ candidates (server w) (exp_id e)) by now apply candidates_spec.
        specialize (Hble r Hc). unfold precedes in Hble. simpl in Hble. rewrite Hv' in Hble.
        destruct (assoc "AE-at-50th-percentile" (metrics best)) as [v|]; [|discriminate].
        exists v. split; [reflexivity|]. now apply Qle_bool_iff.
Qed.

Lemma run_selection_one_or_fatal_witness :
  exists latest best,
    latest_run example_world = (Ok latest, example_world)
    /\ latest ∈ runs example_server
    /\ (forall r, r ∈ runs example_server -> experiment_id (info r) = 1 ->
                  lifecycle_stage (info r) = active ->
                  (start_time (info r) <= start_time (info latest))%Z)
    /\ best_run example_world = (Ok best, example_world)
    /\ best ∈ runs example_server
    /\ (forall r v', r ∈ runs example_server -> experiment_id (info r) = 1 ->
                     lifecycle_stage (info r) = active ->
                     assoc "AE-at-50th-percentile" (metrics r) = Some v' ->
                     exists v, assoc "AE-at-50th-percentile" (metrics best) = Some v
                               /\ (v <= v')%Q).
Proof.
  destruct (run_selection_one_or_fatal example_world) as [_ H].
  destruct (H {| exp_id := 1; exp_name := "california-housing" |} eq_refl)
    as (_ & _ & _ & _ & Hruns).
  destruct Hruns as (latest & best & Hl & Hl1 & _ & _ & Hlle & Hb & Hb1 & _ & _ & Hble).
  - exists run_a. repeat split. left.
  - now exists latest, best.
Defined.

(** C3, as amended.  When a run of the experiment logged the metric, the
    best-run selection returns a run of the experiment whose
    AE-at-50th-percentile is the smallest among all the runs of the
    experiment that logged it, whatever their status.  The order is always
    ascending, which is the direction the notebook is configured with
    (Minimize); the selection has no other direction. *)
Theorem best_run_is_smallest (w : World) (e : Experiment) (r0 : Run) (v0 : Q) :
  get_experiment_by_name (server w) experiment_name = Some e ->
  r0 ∈ candidates (server w) (exp_id e) ->
  assoc "AE-at-50th-percentile" (metrics r0) = Some v0 ->
  objective_type = SageMaker.Minimize
  /\ exists r v,
      best_run w = (Ok r, w)
      /\ r ∈ candidates (server w) (exp_id e)
      /\ assoc "AE-at-50th-percentile" (metrics r) = Some v
      /\ forall r' v', r' ∈ candidates (server w) (exp_id e) ->
                       assoc "AE-at-50th-percentile" (metrics r') = Some v' ->
                       (v <= v')%Q.
Proof.
  intros He Hr0 Hv0. split; [reflexivity|].
  pose proof (select_run_spec w e "metrics.`AE-at-50th-percentile` ASC"
                (metric "AE-at-50th-percentile", ASC) He eq_refl) as Hbest.
  fold best_run in Hbest.
  destruct (candidates (server w) (exp_id e)) as [|x l] eqn:Hcand; [inversion Hr0|].
  destruct Hbest as (r & Hrun & Hin & Hle). exists r.
  pose proof (Hle r0 Hr0) as H0. unfold precedes in H0. simpl in H0. rewrite Hv0 in H0.
  destruct (assoc "AE-at-50th-percentile" (metrics r)) as [v|] eqn:Hv; [|discriminate].
  exists v. repeat split; try assumption.
  intros r' v' Hr' Hv'. specialize (Hle r' Hr'). unfold precedes in Hle. simpl in Hle.
  rewrite Hv, Hv' in Hle. now apply Qle_bool_iff.
Qed.

Lemma best_run_is_smallest_witness :
  exists r v,
    best_run example_world = (Ok r, example_world)
    /\ r ∈ candidates example_server 1
    /\ assoc "AE-at-50th-percentile" (metrics r) = Some v
    /\ forall r' v', r' ∈ candidates example_server 1 ->
                     assoc "AE-at-50th-percentile" (metrics r') = Some v' ->
                     (v <= v')%Q.
Proof.
  apply (best_run_is_smallest example_world {| exp_id := 1; exp_name := "california-housing" |}
           run_a 0.4%Q).
  - reflexivity.
  - vm_compute. left.
  - reflexivity.
Defined.

(** C3, as stated, fails.  Of three runs, two finished with 0.4 and 0.7 and
    one failed after logging 0.1, the selection returns the failed one: it
    is not the smallest of the completed runs (that is the run with 0.4),
    and it is not the largest, which a Maximize objective would ask for
    (that is the run with 0.7). *)
Lemma best_run_counterexample :
  best_run example_world = (Ok run_c, example_world)
  /\ status (info run_c) = FAILED
  /\ candidates example_server 1 = [run_a; run_b; run_c]
  /\ status (info run_a) = FINISHED /\ status (info run_b) = FINISHED
  /\ metrics run_a = [("AE-at-50th-percentile", 0.4%Q)]
  /\ metrics run_b = [("AE-at-50th-percentile", 0.7%Q)]
  /\ metrics run_c = [("AE-at-50th-percentile", 0.1%Q)].
Proof. repeat split. Qed.

End RunSelection.

(** ** Model registration *)

Section Registration.
Import Mlflow Notebook.

(** The steps of a cell, to be unfolded when a cell is run by hand. *)
Create HintDb cells.
#[local] Hint Unfold bind ret lift try_except print
  create_registered_model create_model_version
  Mlflow.create_registered_model Mlflow.create_model_version : cells.

Lemma next_version_above (versions : list ModelVersion) (mv : ModelVersion) :
  mv ∈ versions -> version mv < next_version versions.
Proof.
  intros Hin. unfold next_version. apply Nat.lt_succ_r, max_list_elem_of_le.
  apply list_elem_of_fmap. now exists mv.
Qed.

(** One registration: it returns a version of the name, numbered above all
    the versions the registry held, and adds it to them.  It prints that the
    model exists exactly when the name was registered before. *)
Lemma register_model_once (nm : string) (run : Run) (w : World) :
  exists mv w',
    register_model nm run w = (Ok mv, w')
    /\ name mv = nm
    /\ source mv = artifact_uri (info run) +:+ "/model"
    /\ run_id mv = run_uuid (info run)
    /\ (forall old, old ∈ versions_of (server w) nm -> version old < version mv)
    /\ versions_of (server w') nm = mv :: versions_of (server w) nm
    /\ is_Some (registered_models (server w') !! nm)
    /\ stdout w'
       = stdout w
         ++ match registered_models (server w) !! nm with
            | Some _ => [("Registered model already exists", [])]
            | None => []
            end
         ++ [("model_version: {}", [AVersion mv])].
Proof.
  unfold register_model, versions_of. autounfold with cells.
  destruct (registered_models (server w) !! nm) as [versions|] eqn:Hreg; cbn.
  - rewrite Hreg. cbn. eexists _, _. split; [reflexivity|]. cbn.
    rewrite lookup_insert_eq. cbn. repeat split; eauto.
    + intros old Hold. now apply next_version_above.
    + now rewrite <- app_assoc.
  - rewrite lookup_insert_eq. cbn. eexists _, _. split; [reflexivity|]. cbn.
    rewrite lookup_insert_eq. cbn. repeat split; eauto.
    intros old Hold. inversion Hold.
Qed.

(** C2. Registering under the same name twice succeeds both times, in any
    state of the registry.  Each call creates a version numbered above every
    version the name had before the call, so the second number is above the
    first; the second call finds the name registered, prints so, and goes
    on. *)
Theorem registration_twice (nm : string) (run1 run2 : Run) (w : World) :
  exists mv1 w1 mv2 w2,
    register_model nm run1 w = (Ok mv1, w1)
    /\ register_model nm run2 w1 = (Ok mv2, w2)
    /\ name mv1 = nm /\ name mv2 = nm
    /\ (forall old, old ∈ versions_of (server w) nm -> version old < version mv1)
    /\ (forall old, old ∈ versions_of (server w1) nm -> version old < version mv2)
    /\ version mv1 < version mv2
    /\ versions_of (server w2) nm = mv2 :: mv1 :: versions_of (server w) nm
    /\ stdout w2 = stdout w1 ++ [("Registered model already exists", []);
                                 ("model_version: {}", [AVersion mv2])].
Proof.
  destruct (register_model_once nm run1 w)
    as (mv1 & w1 & Hrun1 & Hn1 & _ & _ & Hold1 & Hvs1 & Hreg1 & _).
  destruct (register_model_once nm run2 w1)
    as (mv2 & w2 & Hrun2 & Hn2 & _ & _ & Hold2 & Hvs2 & _ & Hout2).
  exists mv1, w1, mv2, w2. repeat split; try assumption.
  - apply Hold2. rewrite Hvs1. left.
  - now rewrite Hvs2, Hvs1.
  - rewrite Hout2. destruct Hreg1 as [vs ->]. reflexivity.
Qed.

(** On a registry that does not know the name, the two versions are 1 and 2. *)
Example registration_twice_example :
  exists mv1 w1 mv2 w2,
    register_model model_name run_a example_world = (Ok mv1, w1)
    /\ register_model model_name run_b w1 = (Ok mv2, w2)
    /\ version mv1 = 1 /\ version mv2 = 2
    /\ stdout w2 = [("model_version: {}", [AVersion mv1]);
                    ("Registered model already exists", []);
                    ("model_version: {}", [AVersion mv2])].
Proof. eexists _, _, _, _. repeat split; vm_compute; reflexivity. Qed.

End Registration.

(** ** Credentials *)

Section Credentials.
Import Aws Notebook Effects.

Variable json_loads : string -> result json.
Variable sess : Session.
Variable g : Globals.

(** Retrieving the credentials changes nothing. *)
Lemma retrieve_credentials_reads (region_name secret_name : string) (w : World) :
  (retrieve_credentials json_loads region_name secret_name w).2 = w.
Proof.
  unfold retrieve_credentials.
  destruct (get_secret_value _ _ _) as [secret|]; [|reflexivity].
  destruct (secret_string secret) as [text|]; [|reflexivity].
  destruct (json_loads text) as [v|]; [|reflexivity].
  destruct (getitem v "username"); [|reflexivity].
  now destruct (getitem v "password").
Qed.

(** Storing under the two names of the client: the value decides. *)
Lemma putenv_username (v : string) (w : World) :
  putenv "MLFLOW_TRACKING_USERNAME" (JStr v) w
  = if has_nul v then (Raise ValueError, w)
    else (Ok tt, set_environ (fun e => <["MLFLOW_TRACKING_USERNAME" := v]> e) w).
Proof. unfold putenv. now destruct (has_nul v). Qed.

Lemma putenv_password (v : string) (w : World) :
  putenv "MLFLOW_TRACKING_PASSWORD" (JStr v) w
  = if has_nul v then (Raise ValueError, w)
    else (Ok tt, set_environ (fun e => <["MLFLOW_TRACKING_PASSWORD" := v]> e) w).
Proof. unfold putenv. now destruct (has_nul v). Qed.





End Credentials.




(** ** Endpoints *)

Section Endpoints.
Import Mlflow Aws Pandas Notebook.

Variable serve : list ModelConfig -> SplitJson -> list Q.
Variable sess : Session.
Variable g : Globals.

(** Once the delete cell has run, there is no endpoint of the name. *)
Lemma delete_cell_removes (w w' : World) :
  delete_cell sess w = (Ok tt, w') ->
  endpoints w' !! (region sess, endpoint_name) = None.
Proof.
  unfold delete_cell, delete.
  destruct (endpoints w !! (region sess, endpoint_name)); [|discriminate].
  intros H. inversion H; subst. cbn. apply lookup_delete_eq.
Qed.

(** C8. From a state without an endpoint of the name, the deploy cell
    creates one, which answers requests; the delete cell then removes it and
    leaves the state as it was before the deployment; and after the delete
    cell, from whatever state it ran in, a request to the name fails: the
    endpoint is not there. *)
Theorem deploy_then_delete (mv : ModelVersion) (w : World) :
  endpoints w !! (region sess, endpoint_name) = None ->
  (exists w1,
      deploy_cell sess g mv w = (Ok tt, w1)
      /\ (forall payload,
            invoke serve sess endpoint_name payload w1
            = (Ok (serve [ {| model_uri := "models:/" +:+ name mv +:+ "/" +:+ pretty (version mv);
                              image_url := image_uri sess g;
                              execution_role_arn := role sess;
                              instance_type := "ml.m5.xlarge";
                              instance_count := 1 |} ] payload), w1))
      /\ delete_cell sess w1 = (Ok tt, w)
      /\ forall payload,
           invoke serve sess endpoint_name payload w
           = (Raise (ClientError "ValidationError"), w))
  /\ (forall w1 w2 payload,
        delete_cell sess w1 = (Ok tt, w2) ->
        invoke serve sess endpoint_name payload w2
        = (Raise (ClientError "ValidationError"), w2)).
Proof.
  intros Hnone. split.
  - unfold deploy_cell, deploy. rewrite Hnone. eexists. split; [reflexivity|].
    unfold invoke, invoke_endpoint, delete_cell, delete. cbn.
    rewrite lookup_insert_eq. split; [reflexivity|]. split.
    + rewrite delete_insert_id by exact Hnone. now destruct w.
    + intros payload. now rewrite Hnone.
  - intros w1 w2 payload Hdel. unfold invoke, invoke_endpoint.
    now rewrite (delete_cell_removes w1 w2 Hdel).
Qed.

(** X2. In create mode a deployment does not replace an endpoint: when the
    name is taken the cell raises and changes nothing. *)
Lemma deploy_cell_needs_free_name (mv : ModelVersion) (w : World) :
  is_Some (endpoints w !! (region sess, endpoint_name)) ->
  deploy_cell sess g mv w = (Raise (MlflowException "INVALID_PARAMETER_VALUE"), w).
Proof.
  intros [ms Hms]. unfold deploy_cell, deploy. now rewrite Hms.
Qed.

End Endpoints.

Lemma deploy_cell_needs_free_name_witness :
  exists w1,
    Notebook.deploy_cell example_session example_globals example_version example_world = (Ok tt, w1)
    /\ Notebook.deploy_cell example_session example_globals example_version w1
       = (Raise (MlflowException "INVALID_PARAMETER_VALUE"), w1).
Proof.
  eexists. split; [reflexivity|].
  apply deploy_cell_needs_free_name. eexists. reflexivity.
Defined.

Lemma deploy_then_delete_witness :
  exists w1,
    Notebook.deploy_cell example_session example_globals example_version example_world = (Ok tt, w1)
    /\ Notebook.delete_cell example_session w1 = (Ok tt, example_world)
    /\ forall payload,
         Notebook.invoke example_serve example_session Notebook.endpoint_name payload example_world
         = (Raise (ClientError "ValidationError"), example_world).
Proof.
  destruct (deploy_then_delete example_serve example_session example_globals example_version
              example_world eq_refl)
    as [(w1 & Hdeploy & _ & Hdelete & Hgone) _].
  exists w1. auto.
Defined.

(** ** The columns of a prediction request *)

Section PredictionColumns.
Import Pandas Sklearn Aws SageMaker Notebook Features Effects.

Variable permutation : Z -> nat -> list nat.
Variable fmt : Formats.
Variable sess : Session.





Lemma drop_nine idx vals :
  drop {| columns := nine; index := idx; values := vals |} dropped
  = Ok {| columns := six; index := idx; values := map (select feature_mask) vals |}.
Proof. reflexivity. Qed.





Lemma randrange_in_range (draw stop : nat) :
  0 < stop -> exists i, randrange draw 0 stop = Ok i /\ i < stop.
Proof.
  intros Hstop. unfold randrange. destruct (Nat.leb_spec stop 0); [lia|].
  eexists. split; [reflexivity|].
  pose proof (Nat.mod_upper_bound draw (stop - 0)). lia.
Qed.

(** The files of the save cell, as far as the prediction cell needs them. *)
Lemma save_data_test_file (trainX testX : DataFrame) (w : World) :
  exists paths w',
    save_data sess trainX testX w = (Ok paths, w')
    /\ disk w' !! "california_test.csv" = Some (Pandas.to_csv testX)
    /\ endpoints w' = endpoints w /\ stdout w' = stdout w /\ server w' = server w.
Proof.
  unfold save_data, bind, to_csv, upload_data, ret.
  cbn. rewrite lookup_insert_ne by discriminate. rewrite lookup_insert_eq. cbn.
  rewrite lookup_insert_eq. cbn.
  eexists _, _. split; [reflexivity|]. cbn.
  now rewrite lookup_insert_eq.
Qed.

(** The frames of the prediction cell, read from the saved file: the
    numbers are those the converter of [read_csv] makes of the file. *)
Lemma prediction_frames_of_saved (idx : list nat) (vals : list (list Q)) (w : World) :
  disk w !! "california_test.csv"
  = Some (Pandas.to_csv {| columns := nine; index := idx; values := vals |}) ->
  prediction_frames fmt w
  = (Ok ({| columns := six; index := seq 0 (List.length vals);
            values := map (select feature_mask) (map (map (float_converter fmt)) vals) |},
         {| columns := ["target"]; index := seq 0 (List.length vals);
            values := map (select target_mask) (map (map (float_converter fmt)) vals) |}), w).
Proof.
  intros Hfile. unfold prediction_frames, bind, read_csv, lift, ret.
  change (normpath "./california_test.csv") with "california_test.csv".
  rewrite Hfile. reflexivity.
Qed.


End PredictionColumns.


(** ** The tuner *)

(** X3. The tuner is given the caps of the notebook, 10 jobs in all and 3 at
    a time, which are ordered as the service requires; it tunes the remote
    estimator towards a smaller value of the metric named median-AE, and that
    name is one of the metric definitions it is given. *)
Lemma tuner_is_wired (sess : Notebook.Session) (g : Notebook.Globals) :
  SageMaker.max_jobs (Notebook.tuner sess g) = 10
  /\ SageMaker.max_parallel_jobs (Notebook.tuner sess g) = 3
  /\ 1 <= SageMaker.max_parallel_jobs (Notebook.tuner sess g)
       <= SageMaker.max_jobs (Notebook.tuner sess g)
  /\ SageMaker.objective_type (Notebook.tuner sess g) = SageMaker.Minimize
  /\ SageMaker.estimator (Notebook.tuner sess g) = Notebook.remote_estimator sess g
  /\ SageMaker.objective_metric_name (Notebook.tuner sess g)
     ∈ SageMaker.Name <$> SageMaker.metric_definitions (Notebook.tuner sess g).
Proof.
  split; [reflexivity|]. split; [reflexivity|].
  split; [unfold Notebook.tuner, Notebook.max_jobs, Notebook.max_parallel_jobs; simpl; lia|].
  split; [reflexivity|]. split; [reflexivity|].
  apply list_elem_of_singleton. reflexivity.
Qed.

(** ** More on metric extraction: text after the number, and greed *)

Section RegexGreed.
Import Re SageMaker Notebook MetricPattern Text.

Lemma digit_is_not_newline (c : ascii) : digit_or_dot c = true -> not_newline c = true.
Proof.
  destruct c as [[] [] [] [] [] [] [] []]; vm_compute; congruence.
Qed.

Lemma shorter_tail (c : ascii) (s : string) :
  (String.length s <? String.length (String c s))%nat = true.
Proof. apply Nat.ltb_lt. simpl. lia. Qed.

Section CharLoopGreed.
Variable p : ascii -> bool.
Variable step : string -> captures -> cont -> option captures.
Hypothesis step_char : forall s caps k,
  step s caps k = match s with
                  | String c s' => if p c then k s' caps else None
                  | EmptyString => None
                  end.

(** The loop goes through a run of such characters to a place where the
    rest of the pattern matches. *)
Lemma char_loop_some fuel : forall v s caps k,
  all_chars p v = true -> (String.length v <= fuel)%nat ->
  is_Some (k s caps) -> is_Some (star_loop step fuel (v +:+ s) caps k).
Proof.
  induction fuel as [|fuel IH]; intros v s caps k Hv Hlen Hk.
  - destruct v; simpl in Hlen; [exact Hk|lia].
  - destruct v as [|c v]; [change ("" +:+ s) with s; now apply star_loop_some|].
    rewrite append_cons. cbn [star_loop]. rewrite step_char.
    simpl in Hv. apply andb_prop in Hv as [Hc Hv]. rewrite Hc.
    rewrite shorter_tail.
    destruct (IH v s caps k Hv ltac:(simpl in Hlen; lia) Hk) as [m Hm].
    rewrite Hm. now exists m.
Qed.

(** It takes the whole run when the run ends the text or a character
    outside the set follows it. *)
Lemma char_loop_exact fuel : forall v s caps k m,
  all_chars p v = true -> (String.length v <= fuel)%nat ->
  starts_with p s = false -> k s caps = Some m ->
  star_loop step fuel (v +:+ s) caps k = Some m.
Proof.
  induction fuel as [|fuel IH]; intros v s caps k m Hv Hlen Hs Hk.
  - destruct v; simpl in Hlen; [exact Hk|lia].
  - destruct v as [|c v].
    + change ("" +:+ s) with s. cbn [star_loop]. rewrite step_char.
      destruct s as [|c s]; [now rewrite Hk|].
      simpl in Hs. now rewrite Hs, Hk.
    + rewrite append_cons. cbn [star_loop]. rewrite step_char.
      simpl in Hv. apply andb_prop in Hv as [Hc Hv]. rewrite Hc.
      rewrite shorter_tail.
      now rewrite (IH v s caps k m Hv ltac:(simpl in Hlen; lia) Hs Hk).
Qed.

(** It never stops inside a run, when the rest of the pattern, matching
    before a character of the set, also matches after it. *)
Lemma char_loop_greedy fuel : forall s caps k m,
  (forall c s', p c = true -> is_Some (k (String c s') caps) -> is_Some (k s' caps)) ->
  (String.length s <= fuel)%nat ->
  star_loop step fuel s caps k = Some m ->
  exists v s', s = v +:+ s' /\ all_chars p v = true /\ starts_with p s' = false
               /\ k s' caps = Some m.
Proof.
  induction fuel as [|fuel IH]; intros s caps k m Hk Hlen H.
  - destruct s; simpl in Hlen; [|lia]. exists "", "". auto.
  - cbn [star_loop] in H. rewrite step_char in H. destruct s as [|c s].
    + exists "", "". auto.
    + destruct (p c) eqn:Hc; [|exists "", (String c s); simpl; auto].
      rewrite shorter_tail in H.
      destruct (star_loop step fuel s caps k) as [m'|] eqn:Hloop.
      * inversion H; subst m'.
        destruct (IH s caps k m Hk ltac:(simpl in Hlen; lia) Hloop)
          as (v & s' & -> & Hv & Hs' & Hm).
        exists (String c v), s'. repeat split; try assumption. simpl. now rewrite Hc.
      * exfalso. assert (Hnext : is_Some (k s caps)) by (apply (Hk c); [exact Hc|eauto]).
        pose proof (star_loop_some step fuel s caps k Hnext) as [m' Hm'].
        congruence.
Qed.
End CharLoopGreed.

(** What is left of a line matches [.*$] whatever was captured. *)
Lemma rest_some_tail (c : ascii) (s : string) (caps caps' : captures) :
  not_newline c = true ->
  is_Some (matches (Star any_char) (String c s) caps
             (fun s' c' => matches End_ s' c' (fun _ x => Some x))) ->
  is_Some (matches (Star any_char) s caps'
             (fun s' c' => matches End_ s' c' (fun _ x => Some x))).
Proof.
  intros Hc [m Hm]. cbn [matches] in *.
  apply (char_loop_inv _ _ any_step) in Hm as (v & s' & Hsplit & Hv & Hend).
  assert (Hend' : is_Some (matches End_ s' caps' (fun _ x => Some x))).
  { cbn [matches] in *. destruct (_ || _); [eauto|discriminate]. }
  destruct v as [|c0 v].
  - change ("" +:+ s') with s' in Hsplit. subst s'. exfalso.
    unfold not_newline in Hc. apply negb_true_iff in Hc.
    cbn [matches] in Hend.
    destruct (String.eqb_spec (String c s) "") as [E|_]; [discriminate E|].
    destruct (String.eqb_spec (String c s) (String newline "")) as [E|_]; [|discriminate Hend].
    inversion E; subst c. now rewrite Ascii.eqb_refl in Hc.
  - rewrite append_cons in Hsplit. inversion Hsplit; subst c0 s.
    simpl in Hv. apply andb_prop in Hv as [_ Hv].
    apply (char_loop_some _ _ any_step); [exact Hv|rewrite length_append; lia|exact Hend'].
Qed.

(** The pattern at the head of a line: the label, a run of digits and dots
    that ends the line or is followed by another character, and the rest of
    the line. *)
Lemma metric_regex_number_then_text (v post : string) :
  v <> "" -> all_chars digit_or_dot v = true ->
  starts_with digit_or_dot post = false -> all_chars not_newline post = true ->
  matches metric_regex (label +:+ v +:+ post) ∅ (fun _ caps => Some caps)
  = Some (<[1 := v]> ∅).
Proof.
  intros Hne Hv Hpost Hline. unfold metric_regex. cbn [matches]. rewrite matches_lits.
  cbn [matches]. rewrite strip_prefix_app. destruct v as [|c v]; [congruence|].
  rewrite append_cons, number_step. simpl in Hv. apply andb_prop in Hv as [Hc Hv]. rewrite Hc.
  apply (char_loop_exact _ _ number_step); [exact Hv|rewrite length_append; lia|exact Hpost|].
  pose proof (rest_of_line post (<[1 := consumed (String c (v +:+ post)) post]> ∅) Hline)
    as Hrest.
  cbn [matches] in Hrest. rewrite Hrest. now rewrite <- append_cons, consumed_app.
Qed.

(** X5. A line that starts with the label and a number written with digits
    and dots yields exactly that number, whatever text follows the number on
    the line, as long as that text does not start with a digit or a dot. *)
Theorem metric_value_before_text (d : MetricDefinition) (v post : string) :
  d ∈ metric_definitions ->
  v <> "" -> all_chars digit_or_dot v = true ->
  starts_with digit_or_dot post = false -> all_chars not_newline post = true ->
  metric_value d (label +:+ v +:+ post) = Some v.
Proof.
  intros Hd Hne Hv Hpost Hline. unfold metric_value. rewrite (compile_metric_regex d Hd).
  rewrite (search_head _ _ _ (metric_regex_number_then_text v post Hne Hv Hpost Hline)).
  apply (lookup_insert_eq (M := gmap nat)).
Qed.

Lemma metric_value_before_text_witness :
  metric_value example_metric "AE-at-50th-percentile: 0.35 (test set)" = Some "0.35".
Proof.
  apply (metric_value_before_text example_metric "0.35" " (test set)").
  - apply list_elem_of_singleton. reflexivity.
  - discriminate.
  - reflexivity.
  - reflexivity.
  - reflexivity.
Defined.

(** A match of the pattern at the head of [s] takes the whole run. *)
Lemma metric_regex_match_greedy (s : string) (m : captures) :
  matches metric_regex s ∅ (fun _ caps => Some caps) = Some m ->
  exists v post, s = label +:+ v +:+ post /\ v <> "" /\ all_chars digit_or_dot v = true
                 /\ starts_with digit_or_dot post = false /\ group m 1 = Some v.
Proof.
  unfold metric_regex. cbn [matches]. rewrite matches_lits. cbn [matches].
  destruct (strip_prefix label s) as [s1|] eqn:Hpre; [|discriminate].
  apply strip_prefix_Some in Hpre. subst s.
  destruct s1 as [|c s1]; [discriminate|].
  rewrite number_step.
  destruct (digit_or_dot c) eqn:Hc; [|discriminate].
  intros H.
  apply (char_loop_greedy _ _ number_step) in H as (v & s' & -> & Hv & Hs' & H); [| |lia].
  - apply (char_loop_inv _ _ any_step) in H as (v' & s'' & _ & _ & H).
    destruct (_ || _) in H; [|discriminate]. inversion H; subst m; clear H.
    exists (String c v), s'. repeat split.
    + discriminate.
    + simpl. now rewrite Hc.
    + exact Hs'.
    + unfold group. rewrite <- append_cons, consumed_app.
      apply (lookup_insert_eq (M := gmap nat)).
  - intros c' s' Hc' Hsome.
    exact (rest_some_tail c' s' _ _ (digit_is_not_newline c' Hc') Hsome).
Qed.

(** X6. The value a line yields is a whole run of digits and dots: the
    character after it in the line, if there is one, is neither a digit nor a
    dot. *)
Theorem metric_value_is_a_whole_run (d : MetricDefinition) (line v : string) :
  d ∈ metric_definitions ->
  metric_value d line = Some v ->
  exists pre post,
    line = pre +:+ label +:+ v +:+ post
    /\ v <> "" /\ all_chars digit_or_dot v = true
    /\ starts_with digit_or_dot post = false.
Proof.
  intros Hd. unfold metric_value. rewrite (compile_metric_regex d Hd). intros H.
  destruct (search metric_regex line) as [m|] eqn:Hs; [|discriminate].
  apply search_inv in Hs as (pre & s' & -> & Hm).
  apply metric_regex_match_greedy in Hm as (v' & post & -> & Hne & Hv & Hpost & Hg).
  rewrite Hg in H. inversion H; subst v'. exists pre, post. auto.
Qed.

Lemma metric_value_is_a_whole_run_witness :
  exists pre post,
    "job 7 AE-at-50th-percentile: 12.5e3" = pre +:+ label +:+ "12.5" +:+ post
    /\ "12.5" <> "" /\ all_chars digit_or_dot "12.5" = true
    /\ starts_with digit_or_dot post = false.
Proof.
  apply (metric_value_is_a_whole_run example_metric).
  - apply list_elem_of_singleton. reflexivity.
  - vm_compute. reflexivity.
Defined.

End RegexGreed.

(** ** The saved files *)

Section SavedFiles.
Import Pandas Notebook Effects.

Variable fmt : Formats.
Variable sess : Session.




End SavedFiles.


(** ** More on registration: what it points at and what it leaves alone *)

Section RegistrationCells.
Import Mlflow Notebook.

(** X8. A registration changes the registry entry of its name and prints;
    it leaves the versions of every other name, the runs, the experiments
    and the rest of the state as they were. *)
Theorem registration_touches_one_name (nm : string) (run : Run) (w : World) :
  exists mv w',
    register_model nm run w = (Ok mv, w')
    /\ (forall other, other <> nm ->
          registered_models (server w') !! other = registered_models (server w) !! other)
    /\ runs (server w') = runs (server w)
    /\ experiments (server w') = experiments (server w)
    /\ environ w' = environ w /\ secretsmanager w' = secretsmanager w
    /\ endpoints w' = endpoints w /\ disk w' = disk w /\ s3 w' = s3 w.
Proof.
  unfold register_model, bind, try_except, ret, print, create_registered_model,
    create_model_version, Mlflow.create_registered_model, Mlflow.create_model_version.
  destruct (registered_models (server w) !! nm) as [versions|] eqn:Hreg; cbn.
  - rewrite Hreg. cbn. eexists _, _. split; [reflexivity|]. cbn.
    repeat split. intros other Hother. now rewrite lookup_insert_ne by congruence.
  - rewrite lookup_insert_eq. cbn. eexists _, _. split; [reflexivity|]. cbn.
    repeat split. intros other Hother. now rewrite !lookup_insert_ne by congruence.
Qed.

Lemma register_model_keeps_runs (nm : string) (run : Run) (w w' : World) (mv : ModelVersion) :
  register_model nm run w = (Ok mv, w') -> runs (server w') = runs (server w).
Proof.
  unfold register_model, bind, try_except, ret, print, create_registered_model,
    create_model_version, Mlflow.create_registered_model, Mlflow.create_model_version.
  destruct (registered_models (server w) !! nm) as [versions|] eqn:Hreg; cbn.
  - rewrite Hreg. cbn. intros H. now inversion H.
  - rewrite lookup_insert_eq. cbn. intros H. now inversion H.
Qed.

Lemma set_experiment_known (sv : Server) (e : Experiment) :
  get_experiment_by_name sv experiment_name = Some e ->
  set_experiment sv experiment_name = sv.
Proof. intros He. unfold set_experiment. now rewrite He. Qed.

(** X9. With runs in the experiment, the first registration cell registers
    the latest run: the version it returns is a version of the model of the
    notebook, numbered above the earlier ones, whose run is a run no other
    run of the experiment started after, and whose source is the model
    directory under that run's artifacts.  The runs are left as they were. *)
Theorem register_latest_cell_registers_latest_run (w : World) (e : Experiment) :
  get_experiment_by_name (server w) experiment_name = Some e ->
  candidates (server w) (exp_id e) <> [] ->
  exists latest mv w',
    register_latest_cell w = (Ok mv, w')
    /\ latest ∈ candidates (server w) (exp_id e)
    /\ (forall r, r ∈ candidates (server w) (exp_id e) ->
                  (start_time (info r) <= start_time (info latest))%Z)
    /\ name mv = model_name
    /\ run_id mv = run_uuid (info latest)
    /\ source mv = artifact_uri (info latest) +:+ "/model"
    /\ (forall old, old ∈ versions_of (server w) model_name -> version old < version mv)
    /\ versions_of (server w') model_name = mv :: versions_of (server w) model_name
    /\ runs (server w') = runs (server w).
Proof.
  intros He Hne.
  pose proof (select_run_spec w e "attribute.start_time DESC"
                (attribute_start_time, DESC) He eq_refl) as Hlatest.
  fold latest_run in Hlatest.
  destruct (candidates (server w) (exp_id e)) as [|x l] eqn:Hcand; [congruence|].
  destruct Hlatest as (latest & Hrun & Hin & Hle).
  destruct (register_model_once model_name latest w)
    as (mv & w' & Hreg & Hname & Hsrc & Hrid & Hold & Hvs & _ & _).
  exists latest, mv, w'.
  split.
  { unfold register_latest_cell, bind.
    now rewrite (set_experiment_known _ e He), set_server_same, Hrun, Hreg. }
  repeat split; try assumption.
  - intros r Hr. specialize (Hle r Hr). unfold precedes in Hle. simpl in Hle.
    apply Qle_bool_iff in Hle. now rewrite Zle_Qle.
  - exact (register_model_keeps_runs _ _ _ _ _ Hreg).
Qed.

Lemma register_latest_cell_registers_latest_run_witness :
  exists latest mv w',
    register_latest_cell example_world = (Ok mv, w')
    /\ latest ∈ candidates example_server 1
    /\ (forall r, r ∈ candidates example_server 1 ->
                  (start_time (info r) <= start_time (info latest))%Z)
    /\ name mv = model_name
    /\ run_id mv = run_uuid (info latest)
    /\ source mv = artifact_uri (info latest) +:+ "/model"
    /\ (forall old, old ∈ versions_of example_server model_name -> version old < version mv)
    /\ versions_of (server w') model_name = mv :: versions_of example_server model_name
    /\ runs (server w') = runs example_server.
Proof.
  apply (register_latest_cell_registers_latest_run example_world
           {| exp_id := 1; exp_name := "california-housing" |}).
  - reflexivity.
  - discriminate.
Defined.

(** X10. When a run of the experiment logged the metric, the second
    registration cell registers a run with the smallest value of it: the
    version it returns is a version of the model of the notebook, numbered
    above the earlier ones, whose run logged a value no run of the
    experiment is below, and whose source is the model directory under that
    run's artifacts. *)
Theorem register_best_cell_registers_smallest_run (w : World) (e : Experiment)
    (r0 : Run) (v0 : Q) :
  get_experiment_by_name (server w) experiment_name = Some e ->
  r0 ∈ candidates (server w) (exp_id e) ->
  assoc "AE-at-50th-percentile" (metrics r0) = Some v0 ->
  exists best v mv w',
    register_best_cell w = (Ok mv, w')
    /\ best ∈ candidates (server w) (exp_id e)
    /\ assoc "AE-at-50th-percentile" (metrics best) = Some v
    /\ (forall r' v', r' ∈ candidates (server w) (exp_id e) ->
                      assoc "AE-at-50th-percentile" (metrics r') = Some v' -> (v <= v')%Q)
    /\ name mv = model_name
    /\ run_id mv = run_uuid (info best)
    /\ source mv = artifact_uri (info best) +:+ "/model"
    /\ (forall old, old ∈ versions_of (server w) model_name -> version old < version mv)
    /\ versions_of (server w') model_name = mv :: versions_of (server w) model_name.
Proof.
  intros He Hr0 Hv0.
  pose proof (select_run_spec w e "metrics.`AE-at-50th-percentile` ASC"
                (metric "AE-at-50th-percentile", ASC) He eq_refl) as Hbest.
  fold best_run in Hbest.
  destruct (candidates (server w) (exp_id e)) as [|x l] eqn:Hcand; [inversion Hr0|].
  destruct Hbest as (best & Hrun & Hin & Hle).
  pose proof (Hle r0 Hr0) as H0. unfold precedes in H0. simpl in H0. rewrite Hv0 in H0.
  destruct (assoc "AE-at-50th-percentile" (metrics best)) as [v|] eqn:Hv; [|discriminate].
  destruct (register_model_once model_name best w)
    as (mv & w' & Hreg & Hname & Hsrc & Hrid & Hold & Hvs & _ & _).
  exists best, v, mv, w'.
  split; [unfold register_best_cell, bind; now rewrite Hrun, Hreg|].
  repeat split; try assumption.
  intros r' v' Hr' Hv'. specialize (Hle r' Hr'). unfold precedes in Hle. simpl in Hle.
  rewrite Hv, Hv' in Hle. now apply Qle_bool_iff.
Qed.

Lemma register_best_cell_registers_smallest_run_witness :
  exists best v mv w',
    register_best_cell example_world = (Ok mv, w')
    /\ best ∈ candidates example_server 1
    /\ assoc "AE-at-50th-percentile" (metrics best) = Some v
    /\ (forall r' v', r' ∈ candidates example_server 1 ->
                      assoc "AE-at-50th-percentile" (metrics r') = Some v' -> (v <= v')%Q)
    /\ name mv = model_name
    /\ run_id mv = run_uuid (info best)
    /\ source mv = artifact_uri (info best) +:+ "/model"
    /\ (forall old, old ∈ versions_of example_server model_name -> version old < version mv)
    /\ versions_of (server w') model_name = mv :: versions_of example_server model_name.
Proof.
  apply (register_best_cell_registers_smallest_run example_world
           {| exp_id := 1; exp_name := "california-housing" |} run_b 0.7%Q).
  - reflexivity.
  - vm_compute. right. left.
  - reflexivity.
Defined.

Lemma filter_none {A} (f : A -> bool) (l : list A) :
  Forall (fun x => f x = false) l -> List.filter f l = [].
Proof.
  induction 1 as [|x l Hx _ IH]; [reflexivity|]. simpl. now rewrite Hx.
Qed.

(** The experiment [set_experiment] creates is found by its name. *)
Lemma set_experiment_creates (sv : Server) :
  get_experiment_by_name sv experiment_name = None ->
  get_experiment_by_name (set_experiment sv experiment_name) experiment_name
  = Some {| exp_id := S (max_list (exp_id <$> experiments sv)); exp_name := experiment_name |}.
Proof.
  intros Hnone. unfold set_experiment. rewrite Hnone.
  unfold get_experiment_by_name in *. cbn [experiments with_experiments].
  destruct (list_find _ (experiments sv)) as [[i x]|] eqn:Hfind; [discriminate|].
  rewrite (list_find_app_r _ _ _ Hfind). cbn. now rewrite decide_True by reflexivity.
Qed.

(** X11. On a server that does not know the experiment, and whose runs all
    belong to experiments it knows, the first registration cell creates the
    experiment and then stops with IndexError, for want of a run: the
    experiment stays created, numbered above the others, and nothing is
    registered.  Run again, the cell stops the same way and changes nothing
    more. *)
Theorem register_latest_cell_first_time (w : World) :
  get_experiment_by_name (server w) experiment_name = None ->
  Forall (fun r => experiment_id (info r) ∈ exp_id <$> experiments (server w))
         (runs (server w)) ->
  exists w',
    register_latest_cell w = (Raise IndexError, w')
    /\ experiments (server w')
       = experiments (server w)
         ++ [{| exp_id := S (max_list (exp_id <$> experiments (server w)));
                exp_name := experiment_name |}]
    /\ runs (server w') = runs (server w)
    /\ registered_models (server w') = registered_models (server w)
    /\ environ w' = environ w /\ endpoints w' = endpoints w /\ stdout w' = stdout w
    /\ register_latest_cell w' = (Raise IndexError, w').
Proof.
  intros Hnone Hruns.
  set (e := {| exp_id := S (max_list (exp_id <$> experiments (server w)));
               exp_name := experiment_name |}).
  set (sv' := set_experiment (server w) experiment_name).
  assert (He : get_experiment_by_name sv' experiment_name = Some e)
    by now apply set_experiment_creates.
  assert (Hsv' : sv' = with_experiments (fun es => es ++ [e]) (server w))
    by (unfold sv', set_experiment; now rewrite Hnone).
  assert (Hcand : candidates sv' (exp_id e) = []).
  { unfold candidates. rewrite Hsv'. cbn [runs with_experiments]. apply filter_none.
    eapply Forall_impl; [exact Hruns|]. intros r Hr. cbn beta in Hr.
    apply max_list_elem_of_le in Hr.
    destruct (Nat.eqb_spec (experiment_id (info r)) (exp_id e)) as [E|_];
      [cbn [exp_id e] in E; lia|apply andb_false_r]. }
  assert (Hlatest : forall w0, server w0 = sv' -> latest_run w0 = (Raise IndexError, w0)).
  { intros w0 Hw0.
    pose proof (select_run_spec w0 e "attribute.start_time DESC"
                  (attribute_start_time, DESC)) as Hsel.
    rewrite Hw0, Hcand in Hsel. now apply Hsel. }
  exists (set_server sv' w). split; [|repeat split].
  - unfold register_latest_cell, bind. fold sv'. now rewrite (Hlatest (set_server sv' w)).
  - cbn [server set_server]. now rewrite Hsv'.
  - cbn [server set_server]. now rewrite Hsv'.
  - cbn [server set_server]. now rewrite Hsv'.
  - unfold register_latest_cell, bind. cbn [server set_server].
    rewrite (set_experiment_known sv' e He).
    assert (Hsame : set_server sv' (set_server sv' w) = set_server sv' w) by reflexivity.
    rewrite Hsame. now rewrite (Hlatest (set_server sv' w)).
Qed.

Lemma register_latest_cell_first_time_witness :
  exists w',
    register_latest_cell fresh_world = (Raise IndexError, w')
    /\ experiments (server w')
       = [ {| exp_id := 4; exp_name := "iris" |};
           {| exp_id := 5; exp_name := "california-housing" |} ]
    /\ register_latest_cell w' = (Raise IndexError, w').
Proof.
  destruct (register_latest_cell_first_time fresh_world) as (w' & Hrun & Hexp & _ & _ & _ & _ & _ & Hagain).
  - reflexivity.
  - repeat constructor.
  - exists w'. auto.
Defined.

End RegistrationCells.

(** ** More on the credentials: running the cell again *)

Section CredentialsAgain.
Import Aws Notebook.

Variable json_loads : string -> result json.
Variable sess : Session.
Variable g : Globals.

(** What a successful run of the credentials cell has read and done. *)
Lemma credentials_cell_ok (w w1 : World) :
  credentials_cell json_loads sess g w = (Ok tt, w1) ->
  exists u p,
    retrieve_credentials json_loads (region sess) (mlflow_secret_name g) w
    = (Ok [("username", JStr u); ("password", JStr p)], w)
    /\ has_nul u = false /\ has_nul p = false
    /\ w1 = set_environ (fun e => <["MLFLOW_TRACKING_PASSWORD" := p]>
                                    (<["MLFLOW_TRACKING_USERNAME" := u]> e)) w.
Proof.
  unfold credentials_cell, bind.
  pose proof (retrieve_credentials_reads json_loads (region sess) (mlflow_secret_name g) w) as Hw.
  destruct (retrieve_credentials json_loads (region sess) (mlflow_secret_name g) w)
    as [[credentials|e] w0] eqn:Hget; simpl in Hw; subst w0; [|discriminate].
  assert (Hshape : exists username password,
             credentials = [("username", username); ("password", password)]).
  { unfold retrieve_credentials in Hget.
    destruct (get_secret_value _ _ _) as [secret|]; [|discriminate].
    destruct (secret_string secret) as [text|]; [|discriminate].
    destruct (json_loads text) as [v|]; [|discriminate].
    destruct (getitem v "username") as [username|]; [|discriminate].
    destruct (getitem v "password") as [password|]; [|discriminate].
    inversion Hget. eauto. }
  destruct Hshape as (username & password & ->). unfold lift. cbn [getitem assoc String.eqb].
  cbn.
  destruct username as [| | |u| |]; try (unfold putenv; discriminate).
  rewrite putenv_username. destruct (has_nul u) eqn:Hu; [discriminate|].
  destruct password as [| | |p| |]; try (unfold putenv; discriminate).
  rewrite putenv_password. destruct (has_nul p) eqn:Hp; [discriminate|].
  intros H. inversion H; subst w1. exists u, p.
  split; [reflexivity|]. split; [exact Hu|]. split; [exact Hp|]. now destruct w.
Qed.

(** X12. The credentials cell can be run again: after a run that succeeded,
    a second run succeeds too and leaves the state exactly as the first run
    left it. *)
Theorem credentials_cell_again (w w1 : World) :
  credentials_cell json_loads sess g w = (Ok tt, w1) ->
  credentials_cell json_loads sess g w1 = (Ok tt, w1).
Proof.
  intros Hrun. apply credentials_cell_ok in Hrun as (u & p & Hget & Hu & Hp & ->).
  assert (Hget1 : forall f,
             retrieve_credentials json_loads (region sess) (mlflow_secret_name g)
               (set_environ f w)
             = (Ok [("username", JStr u); ("password", JStr p)], set_environ f w)).
  { intros f. unfold retrieve_credentials in *. cbn [secretsmanager set_environ].
    destruct (get_secret_value _ _ _) as [secret|]; [|discriminate].
    destruct (secret_string secret) as [text|]; [|discriminate].
    destruct (json_loads text) as [v|]; [|discriminate].
    destruct (getitem v "username") as [username|]; [|discriminate].
    destruct (getitem v "password") as [password|]; [|discriminate].
    now inversion Hget. }
  unfold credentials_cell, bind. rewrite Hget1. unfold lift. cbn [getitem assoc String.eqb].
  cbn -[putenv]. rewrite putenv_username, Hu, putenv_password, Hp. f_equal.
  unfold set_environ. cbn. f_equal.
  rewrite (insert_insert_ne _ "MLFLOW_TRACKING_USERNAME" "MLFLOW_TRACKING_PASSWORD")
    by discriminate.
  now rewrite !insert_insert_eq.
Qed.

End CredentialsAgain.

Lemma credentials_cell_again_witness :
  exists w1,
    Notebook.credentials_cell example_json_loads example_session example_globals world_with_secret
    = (Ok tt, w1)
    /\ Notebook.credentials_cell example_json_loads example_session example_globals w1
       = (Ok tt, w1).
Proof.
  eexists. split; [reflexivity|].
  apply credentials_cell_again with (w := world_with_secret). reflexivity.
Defined.

(** ** The predictions: which row, which target, which answer *)

Section Predictions.
Import Pandas Sklearn Aws Mlflow Notebook Features Effects.

Variable permutation : Z -> nat -> list nat.
Variable model_predict : string -> DataFrame -> list Q.
Variable serve : list ModelConfig -> SplitJson -> list Q.
Variable fmt : Formats.
Variable sess : Session.
Variable g : Globals.

(** The test frame and the test targets: the targets are the last column. *)
Lemma data_preparation_frames (rows : list (list Q)) (prices : list Q) trainX testX y_test :
  data_preparation permutation (fetch_california_housing rows prices)
  = Ok (trainX, testX, y_test) ->
  exists X_test,
    testX = {| columns := nine; index := seq 0 (List.length X_test);
               values := zip_with (fun r v => r ++ [v]) X_test y_test |}
    /\ List.length y_test = List.length X_test
    /\ Forall (fun r => List.length r = 8) X_test.
Proof.
  unfold data_preparation.
  destruct (train_test_split _ _ _ _ _) as [[[[X_train X_test] y_train] y_test']|]; [|discriminate].
  unfold DataFrame_of. cbn [feature_names fetch_california_housing List.length].
  destruct (forallb _ X_train); [|discriminate].
  unfold setitem at 1. cbn [values columns index].
  destruct (negb _); [discriminate|]. cbn.
  destruct (forallb _ X_test) eqn:Hw; [|discriminate].
  unfold setitem. cbn [values columns index].
  destruct (negb _) eqn:Hl; [discriminate|]. cbn.
  intros H. inversion H; subst. exists X_test.
  apply negb_false_iff, Nat.eqb_eq in Hl. repeat split; [exact Hl|].
  apply Forall_forall. intros r Hr. apply list_elem_of_In in Hr.
  apply Nat.eqb_eq. exact (proj1 (forallb_forall _ _) Hw r Hr).
Qed.

Lemma row_parts (r : list Q) (v : Q) :
  List.length r = 8 ->
  select feature_mask (r ++ [v]) = take 6 (r ++ [v])
  /\ select target_mask (r ++ [v]) = [v]
  /\ last (r ++ [v]) = Some v
  /\ List.length (r ++ [v]) = 9.
Proof.
  intros H. do 8 (destruct r as [|? r]; [discriminate|]).
  destruct r; [|discriminate]. repeat split.
Qed.

Lemma row_parts_map (f : Q -> Q) (r : list Q) (v : Q) :
  List.length r = 8 ->
  select feature_mask (map f (r ++ [v])) = map f (take 6 (r ++ [v]))
  /\ select target_mask (map f (r ++ [v])) = [f v].
Proof.
  intros H. do 8 (destruct r as [|? r]; [discriminate|]).
  destruct r; [|discriminate]. repeat split.
Qed.

Lemma features_width (r : list Q) (v : Q) :
  List.length r = 8 -> List.length (take 6 (r ++ [v])) = 6.
Proof. intros H. rewrite length_take, length_app, H. reflexivity. Qed.

Section OnTestFrame.
Variable X_test : list (list Q).
Variable y_test : list Q.
Hypothesis same_length : List.length y_test = List.length X_test.
Hypothesis widths : Forall (fun r => List.length r = 8) X_test.

Let vals := zip_with (fun r v => r ++ [v]) X_test y_test.
Let testX := {| columns := nine; index := seq 0 (List.length X_test); values := vals |}.

Lemma vals_length : List.length vals = List.length X_test.
Proof. unfold vals. rewrite length_zip_with. lia. Qed.

(** Row [i] of the frame, cut in features and target. *)
Lemma test_row (i : nat) :
  i < List.length X_test ->
  exists r v, X_test !! i = Some r /\ y_test !! i = Some v /\ List.length r = 8
              /\ vals !! i = Some (r ++ [v]).
Proof.
  intros Hi.
  destruct (lookup_lt_is_Some_2 X_test i Hi) as [r Hr].
  destruct (lookup_lt_is_Some_2 y_test i ltac:(lia)) as [v Hv].
  exists r, v. repeat split; try assumption.
  - apply list_elem_of_lookup_2 in Hr. exact (proj1 (Forall_forall _ _) widths r Hr).
  - unfold vals. rewrite lookup_zip_with, Hr. simpl. now rewrite Hv.
Qed.

(** The one-row frame of features of row [i]. *)
Lemma features_of_row (i : nat) (r : list Q) (v : Q) (idx : list nat) :
  idx = seq 0 (List.length X_test) ->
  vals !! i = Some (r ++ [v]) -> List.length r = 8 ->
  iloc {| columns := six; index := idx; values := map (select feature_mask) vals |} i
  = Ok {| columns := six; index := [i]; values := [take 6 (r ++ [v])] |}.
Proof.
  intros -> Hrow Hr. unfold iloc. cbn [index values].
  assert (Hi : i < List.length X_test).
  { rewrite <- vals_length. now apply lookup_lt_Some in Hrow. }
  rewrite (lookup_seq_lt 0 _ i Hi), list_lookup_fmap, Hrow.
  change (select feature_mask <$> Some (r ++ [v]))
    with (Some (select feature_mask (r ++ [v]))).
  now rewrite (proj1 (row_parts r v Hr)).
Qed.

(** The local prediction on the test frame. *)
Lemma local_prediction_on_frame (mv : ModelVersion) (draw : nat) (w : World) :
  X_test <> [] ->
  (forall i row, List.length row = 6 ->
     model_predict (source mv) {| columns := six; index := [i]; values := [row] |} <> []) ->
  exists i row y y_hat rest w',
    local_prediction_cell model_predict mv testX y_test draw w = (Ok (y_hat, y), w')
    /\ i < List.length (values testX)
    /\ values testX !! i = Some row
    /\ last row = Some y
    /\ y_test !! i = Some y
    /\ model_predict (source mv)
         {| columns := six; index := [i]; values := [take 6 row] |} = y_hat :: rest
    /\ same_but_stdout w w'
    /\ List.length (stdout w') = List.length (stdout w) + 5.
Proof.
  intros Hne Hanswer.
  destruct (randrange_in_range draw (List.length vals)) as (i & Hdraw & Hi).
  { rewrite vals_length. destruct X_test; [congruence|simpl; lia]. }
  rewrite vals_length in Hi.
  destruct (test_row i Hi) as (r & v & HX & Hy & Hr & Hrow).
  pose proof (features_of_row i r v _ eq_refl Hrow Hr) as Hiloc.
  destruct (model_predict (source mv)
              {| columns := six; index := [i]; values := [take 6 (r ++ [v])] |})
    as [|y_hat rest] eqn:Hpred;
      [now apply Hanswer in Hpred; [|apply features_width]|].
  exists i, (r ++ [v]), v, y_hat, rest.
  unfold local_prediction_cell, local_prediction_data, bind, lift, print, ret.
  cbn [values testX]. rewrite Hdraw. unfold testX. rewrite drop_nine, Hiloc. cbn.
  rewrite Hpred. cbn. rewrite Hy. cbn.
  eexists. split; [reflexivity|]. cbn.
  split; [now rewrite vals_length|]. split; [exact Hrow|].
  split; [exact (proj1 (proj2 (proj2 (row_parts r v Hr))))|].
  split; [reflexivity|]. split; [reflexivity|]. split; [repeat split|].
  rewrite !length_app. simpl. lia.
Qed.

Let cvals := map (map (float_converter fmt)) vals.
Let df := {| columns := six; index := seq 0 (List.length vals);
             values := map (select feature_mask) cvals |}.
Let df_y := {| columns := ["target"]; index := seq 0 (List.length vals);
               values := map (select target_mask) cvals |}.

Lemma round_inputs (draw : nat) :
  X_test <> [] ->
  exists i r v,
    randrange draw 0 (List.length (values df_y)) = Ok i
    /\ i < List.length X_test
    /\ vals !! i = Some (r ++ [v]) /\ List.length r = 8
    /\ endpoint_payload fmt df i
       = Ok {| js_columns := six; js_index := [i];
               js_data := [map (fun x => double_precision fmt (float_converter fmt x))
                               (take 6 (r ++ [v]))] |}
    /\ target_at df_y i = Ok (float_converter fmt v).
Proof.
  intros Hne.
  destruct (randrange_in_range draw (List.length vals)) as (i & Hdraw & Hi).
  { rewrite vals_length. destruct X_test; [congruence|simpl; lia]. }
  rewrite vals_length in Hi.
  destruct (test_row i Hi) as (r & v & HX & Hy & Hr & Hrow).
  assert (Hcrow : cvals !! i = Some (map (float_converter fmt) (r ++ [v]))).
  { unfold cvals. change (map (map (float_converter fmt)) vals)
      with (map (float_converter fmt) <$> vals). now rewrite list_lookup_fmap, Hrow. }
  destruct (row_parts_map (float_converter fmt) r v Hr) as [Hfeat Htarget].
  exists i, r, v. cbn [values df_y]. unfold cvals at 1. rewrite !length_map.
  split; [exact Hdraw|]. split; [exact Hi|]. split; [exact Hrow|]. split; [exact Hr|]. split.
  - unfold endpoint_payload, iloc, df. cbn [Pandas.index values].
    rewrite vals_length, (lookup_seq_lt 0 _ i Hi).
    change (map (select feature_mask) cvals) with (select feature_mask <$> cvals).
    rewrite list_lookup_fmap, Hcrow. cbn [fmap option_fmap option_map].
    rewrite Hfeat. unfold to_json_split. cbn [columns Pandas.index values map].
    now rewrite map_map.
  - unfold target_at. cbn [columns values df_y position String.eqb Ascii.eqb Bool.eqb].
    change (map (select target_mask) cvals) with (select target_mask <$> cvals).
    rewrite list_lookup_fmap, Hcrow. cbn [fmap option_fmap option_map].
    now rewrite Htarget.
Qed.

(** One round of the prediction cell against an endpoint that is there. *)
Lemma predict_once_served (w : World) (ms : list ModelConfig) (draw : nat) :
  X_test <> [] ->
  endpoints w !! (region sess, endpoint_name) = Some ms ->
  (forall i row, List.length row = 6 ->
     serve ms {| js_columns := six; js_index := [i]; js_data := [row] |} <> []) ->
  exists i args lines,
    round_prints fmt serve ms testX i args
    /\ snd <$> lines = args
    /\ predict_once serve fmt sess df df_y draw w = (Ok tt, printed lines w).
Proof.
  intros Hne Hms Hanswer.
  destruct (round_inputs draw Hne) as (i & r & v & Hdraw & Hi & Hrow & Hr & Hpayload & Hy).
  destruct (serve ms {| js_columns := six; js_index := [i];
                        js_data := [map (fun x => double_precision fmt (float_converter fmt x))
                                        (take 6 (r ++ [v]))] |})
    as [|p rest] eqn:Hserve;
      [now apply Hanswer in Hserve; [|rewrite length_map; apply features_width]|].
  exists i, [[ANum (float_converter fmt v)]; [ANum p]]. eexists. split; [|split].
  - exists (r ++ [v]), v, p, rest. repeat split; try assumption.
    exact (proj1 (proj2 (proj2 (row_parts r v Hr)))).
  - shelve.
  - unfold predict_once, bind, lift, invoke, invoke_endpoint, print.
    rewrite Hdraw, Hpayload, Hy, Hms, Hserve. cbn. unfold printed. cbn.
    rewrite <- app_assoc. reflexivity.
  Unshelve. reflexivity.
Qed.

(** One round against an endpoint that is not there. *)
Lemma predict_once_absent (w : World) (draw : nat) :
  X_test <> [] ->
  endpoints w !! (region sess, endpoint_name) = None ->
  predict_once serve fmt sess df df_y draw w = (Raise (ClientError "ValidationError"), w).
Proof.
  intros Hne Hnone.
  destruct (round_inputs draw Hne) as (i & r & v & Hdraw & Hi & Hrow & Hr & Hpayload & Hy).
  unfold predict_once, bind, lift, invoke, invoke_endpoint.
  now rewrite Hdraw, Hpayload, Hy, Hnone.
Qed.

Lemma printed_twice (l1 l2 : list (string * list Arg)) (w : World) :
  printed l2 (printed l1 w) = printed (l1 ++ l2) w.
Proof. unfold printed. cbn. now rewrite app_assoc. Qed.

(** The prediction cell, with the file saved and the endpoint there. *)
Lemma predict_cell_served (w : World) (ms : list ModelConfig) (draws : nat -> nat) :
  X_test <> [] ->
  disk w !! "california_test.csv" = Some (Pandas.to_csv testX) ->
  endpoints w !! (region sess, endpoint_name) = Some ms ->
  (forall i row, List.length row = 6 ->
     serve ms {| js_columns := six; js_index := [i]; js_data := [row] |} <> []) ->
  exists i1 i2 args1 args2 lines,
    round_prints fmt serve ms testX i1 args1
    /\ round_prints fmt serve ms testX i2 args2
    /\ snd <$> lines = args1 ++ args2
    /\ predict_cell serve fmt sess draws w = (Ok tt, printed lines w).
Proof.
  intros Hne Hfile Hms Hanswer.
  destruct (predict_once_served w ms (draws 0) Hne Hms Hanswer)
    as (i1 & args1 & lines1 & Hr1 & Hl1 & Hrun1).
  destruct (predict_once_served (printed lines1 w) ms (draws 1) Hne Hms Hanswer)
    as (i2 & args2 & lines2 & Hr2 & Hl2 & Hrun2).
  exists i1, i2, args1, args2, (lines1 ++ lines2).
  split; [exact Hr1|]. split; [exact Hr2|]. split; [now rewrite fmap_app, Hl1, Hl2|].
  unfold predict_cell, bind. rewrite (prediction_frames_of_saved fmt _ _ w Hfile).
  cbn [for_range fst snd]. unfold bind. fold cvals. fold df df_y. rewrite Hrun1, Hrun2.
  unfold ret. now rewrite printed_twice.
Qed.

Lemma predict_cell_absent (w : World) (draws : nat -> nat) :
  X_test <> [] ->
  disk w !! "california_test.csv" = Some (Pandas.to_csv testX) ->
  endpoints w !! (region sess, endpoint_name) = None ->
  predict_cell serve fmt sess draws w = (Raise (ClientError "ValidationError"), w).
Proof.
  intros Hne Hfile Hnone.
  unfold predict_cell, bind. rewrite (prediction_frames_of_saved fmt _ _ w Hfile).
  cbn [for_range fst snd]. unfold bind. fold cvals. fold df df_y.
  now rewrite (predict_once_absent w (draws 0) Hne Hnone).
Qed.
End OnTestFrame.

Lemma frame_not_empty (X_test : list (list Q)) (y_test : list Q) :
  zip_with (fun r v => r ++ [v]) X_test y_test <> [] -> X_test <> [].
Proof. now destruct X_test. Qed.

(** X13. The local prediction of the registered model.  On the frames the
    preparation cell built, with a test frame that has a row and a model
    that answers when asked for one row of six features, the cell
    succeeds: it draws a row of the test frame,
    asks the model of the registered version for the six features of that
    row alone, and returns the first answer together with the target of
    that same row, which is both the last value of the row and the entry
    of the test targets at that position.  It prints five lines and
    changes nothing else. *)
Theorem local_prediction_pairs_row_and_target (rows : list (list Q)) (prices : list Q)
    (trainX testX : DataFrame) (y_test : list Q)
    (mv : ModelVersion) (draw : nat) (w : World) :
  data_preparation permutation (fetch_california_housing rows prices)
  = Ok (trainX, testX, y_test) ->
  values testX <> [] ->
  (forall i row, List.length row = 6 ->
       model_predict (source mv) {| columns := six; index := [i]; values := [row] |} <> []) ->
  exists i row y y_hat rest w',
    local_prediction_cell model_predict mv testX y_test draw w = (Ok (y_hat, y), w')
    /\ i < List.length (values testX)
    /\ values testX !! i = Some row
    /\ last row = Some y
    /\ y_test !! i = Some y
    /\ model_predict (source mv)
         {| columns := six; index := [i]; values := [take 6 row] |} = y_hat :: rest
    /\ same_but_stdout w w'
    /\ List.length (stdout w') = List.length (stdout w) + 5.
Proof.
  intros Hprep Hrows Hanswer.
  destruct (data_preparation_frames _ _ _ _ _ Hprep) as (X_test & -> & Hlen & Hwidths).
  apply frame_not_empty in Hrows.
  exact (local_prediction_on_frame X_test y_test Hlen Hwidths mv draw w Hrows Hanswer).
Qed.

(** X14. An endpoint serves from its deployment to its deletion.  With
    the frames of the preparation cell saved, a version that is in the
    registry, no endpoint under the name yet and models that answer a
    request of one row of six features, the deployment cell puts one model
    behind the endpoint, the model URI of that version; the prediction
    cell then succeeds and prints, twice, the target of a row of the test
    frame, as read back from the saved file, and the first answer of the
    endpoint to the six features of that same row, as they are read back
    from the file and written into the body of the request; the deletion
    cell then succeeds and leaves the endpoints as they were before the
    deployment; and the prediction cell run once more fails with the
    error of the endpoint that is not there, printing nothing. *)
Theorem endpoint_serves_until_deleted (rows : list (list Q)) (prices : list Q)
    (trainX testX : DataFrame) (y_test : list Q)
    (mv : ModelVersion) (draws draws' : nat -> nat) (w : World) :
  data_preparation permutation (fetch_california_housing rows prices)
  = Ok (trainX, testX, y_test) ->
  values testX <> [] ->
  mv ∈ versions_of (server w) (name mv) ->
  endpoints w !! (region sess, endpoint_name) = None ->
  (forall ms i row, List.length row = 6 ->
     serve ms {| js_columns := six; js_index := [i]; js_data := [row] |} <> []) ->
  exists paths w0 w1 w2 w3 ms i1 i2 args1 args2 lines,
    save_data sess trainX testX w = (Ok paths, w0)
    /\ mv ∈ versions_of (server w0) (name mv)
    /\ deploy_cell sess g mv w0 = (Ok tt, w1)
    /\ endpoints w1 !! (region sess, endpoint_name) = Some ms
    /\ Aws.model_uri <$> ms
       = ["models:/" +:+ name mv +:+ "/" +:+ pretty (version mv)]
    /\ predict_cell serve fmt sess draws w1 = (Ok tt, w2)
    /\ round_prints fmt serve ms testX i1 args1
    /\ round_prints fmt serve ms testX i2 args2
    /\ stdout w2 = stdout w1 ++ lines
    /\ snd <$> lines = args1 ++ args2
    /\ delete_cell sess w2 = (Ok tt, w3)
    /\ endpoints w3 = endpoints w
    /\ predict_cell serve fmt sess draws' w3 = (Raise (ClientError "ValidationError"), w3).
Proof.
  intros Hprep Hrows Hregistered Hfree Hanswer.
  destruct (data_preparation_frames _ _ _ _ _ Hprep) as (X_test & -> & Hlen & Hwidths).
  apply frame_not_empty in Hrows.
  destruct (save_data_test_file sess trainX
              {| columns := nine; index := seq 0 (List.length X_test);
                 values := zip_with (fun r v => r ++ [v]) X_test y_test |} w)
    as (paths & w0 & Hsave & Hfile & Heps & Hout & Hserver).
  set (cfg := {| Aws.model_uri := "models:/" +:+ name mv +:+ "/" +:+ pretty (version mv);
                 image_url := image_uri sess g;
                 execution_role_arn := role sess;
                 instance_type := "ml.m5.xlarge";
                 instance_count := 1 |}).
  set (w1 := set_endpoints (<[(region sess, endpoint_name) := [cfg]]> (endpoints w0)) w0).
  assert (Hms : endpoints w1 !! (region sess, endpoint_name) = Some [cfg])
    by (cbn; apply lookup_insert_eq).
  destruct (predict_cell_served X_test y_test Hlen Hwidths w1 [cfg] draws Hrows Hfile Hms
              (Hanswer [cfg]))
    as (i1 & i2 & args1 & args2 & lines & Hr1 & Hr2 & Hlines & Hpredict).
  set (w3 := set_endpoints (base.delete (region sess, endpoint_name)
                              (endpoints (printed lines w1))) (printed lines w1)).
  exists paths, w0, w1, (printed lines w1), w3, [cfg], i1, i2, args1, args2, lines.
  split; [exact Hsave|]. split; [now rewrite Hserver|]. split.
  { unfold deploy_cell, deploy.
    replace (endpoints w0 !! (region sess, endpoint_name)) with (@None (list ModelConfig))
      by (now rewrite Heps).
    reflexivity. }
  split; [exact Hms|]. split; [reflexivity|]. split; [exact Hpredict|].
  split; [exact Hr1|]. split; [exact Hr2|]. split; [reflexivity|]. split; [exact Hlines|].
  split.
  { unfold delete_cell, Aws.delete.
    change (endpoints (printed lines w1)) with (endpoints w1). now rewrite Hms. }
  split.
  { cbn. rewrite delete_insert_eq, Heps. apply delete_id. exact Hfree. }
  apply (predict_cell_absent X_test y_test Hlen Hwidths w3 draws' Hrows).
  - exact Hfile.
  - cbn. apply lookup_delete_eq.
Qed.

End Predictions.

Lemma local_prediction_pairs_row_and_target_witness :
  exists trainX testX y_test i row y y_hat w',
    Notebook.data_preparation reversal (Sklearn.fetch_california_housing rows8 prices8)
    = Ok (trainX, testX, y_test)
    /\ Notebook.local_prediction_cell example_model example_version testX y_test 3 example_world
       = (Ok (y_hat, y), w')
    /\ Pandas.values testX !! i = Some row
    /\ last row = Some y
    /\ y_test !! i = Some y.
Proof.
  eassert (Hrun : Notebook.data_preparation reversal
                    (Sklearn.fetch_california_housing rows8 prices8) = Ok (_, _, _))
    by (vm_compute; reflexivity).
  destruct (local_prediction_pairs_row_and_target reversal example_model rows8 prices8 _ _ _
              example_version 3 example_world Hrun)
    as (i & row & y & y_hat & rest & w' & Hcell & _ & Hrow & Hlast & Hy & _).
  - discriminate.
  - intros i [|x row] H; discriminate.
  - eexists _, _, _, i, row, y, y_hat, w'. repeat split; eassumption.
Defined.

Lemma endpoint_serves_until_deleted_witness :
  exists trainX testX y_test paths w0 w1 w2 w3 ms i1 args1,
    Notebook.data_preparation reversal (Sklearn.fetch_california_housing rows8 prices8)
    = Ok (trainX, testX, y_test)
    /\ Notebook.save_data example_session trainX testX registered_world = (Ok paths, w0)
    /\ Notebook.deploy_cell example_session example_globals example_version w0 = (Ok tt, w1)
    /\ Notebook.predict_cell example_serve example_formats example_session (fun n => n + 5) w1
       = (Ok tt, w2)
    /\ Effects.round_prints example_formats example_serve ms testX i1 args1
    /\ Notebook.delete_cell example_session w2 = (Ok tt, w3)
    /\ Notebook.predict_cell example_serve example_formats example_session (fun n => n) w3
       = (Raise (Py.ClientError "ValidationError"), w3).
Proof.
  eassert (Hrun : Notebook.data_preparation reversal
                    (Sklearn.fetch_california_housing rows8 prices8) = Ok (_, _, _))
    by (vm_compute; reflexivity).
  destruct (endpoint_serves_until_deleted reversal example_serve example_formats
              example_session example_globals
              rows8 prices8 _ _ _ example_version (fun n => n + 5) (fun n => n)
              registered_world Hrun)
    as (paths & w0 & w1 & w2 & w3 & ms & i1 & i2 & args1 & args2 & lines
        & Hsave & _ & Hdeploy & _ & _ & Hpredict & Hr1 & _ & _ & _ & Hdelete & _ & Hgone).
  - discriminate.
  - vm_compute. left.
  - reflexivity.
  - intros ms i [|x row] H; discriminate.
  - eexists _, _, _, paths, w0, w1, w2, w3, ms, i1, args1. repeat split; eassumption.
Defined.

(** ** The first cell: the account of the role and the variables of the server *)

Section FirstCell.
Import Notebook Text Effects.

Lemma append_nil_r (s : string) : s +:+ "" = s.
Proof. induction s as [|x s IH]; [reflexivity|]. rewrite append_cons. now rewrite IH. Qed.

Lemma append_assoc (a b c : string) : (a +:+ b) +:+ c = a +:+ (b +:+ c).
Proof. induction a as [|x a IH]; [reflexivity|]. rewrite !append_cons. now rewrite IH. Qed.

Lemma append_snoc (a : string) (x : ascii) (b : string) :
  (a +:+ String x "") +:+ b = a +:+ String x b.
Proof. now rewrite append_assoc. Qed.

Lemma split_on_aux_nonempty (sep : string) (skip : nat) (cur s : string) :
  split_on_aux sep skip cur s <> [].
Proof.
  revert skip cur. induction s as [|x s IH]; intros skip cur; [discriminate|].
  cbn [split_on_aux]. destruct skip; [|apply IH].
  destruct (strip_prefix sep (String x s)); [discriminate|apply IH].
Qed.

(** *** Splitting on one character *)

Lemma split_char_step (c x : ascii) (cur s : string) :
  split_on_aux (String c "") 0 cur (String x s)
  = if Ascii.eqb c x then cur :: split_on_aux (String c "") 0 "" s
    else split_on_aux (String c "") 0 (cur +:+ String x "") s.
Proof. cbn [split_on_aux strip_prefix String.length Nat.sub]. now destruct (Ascii.eqb c x). Qed.

Lemma split_char_head (c : ascii) (cur s : string) :
  head (split_on_aux (String c "") 0 cur s) = Some (cur +:+ upto c s).
Proof.
  revert cur. induction s as [|x s IH]; intros cur.
  - cbn. now rewrite append_nil_r.
  - rewrite split_char_step. cbn [upto]. destruct (Ascii.eqb c x).
    + cbn. now rewrite append_nil_r.
    + now rewrite IH, append_snoc.
Qed.

Lemma split_char_free (c : ascii) (cur s : string) :
  all_chars (is_not c) s = true -> split_on_aux (String c "") 0 cur s = [cur +:+ s].
Proof.
  revert cur. induction s as [|x s IH]; intros cur H.
  - cbn. now rewrite append_nil_r.
  - rewrite split_char_step. cbn [all_chars] in H. apply andb_prop in H as [Hx Hs].
    unfold is_not in Hx. rewrite Ascii.eqb_sym in Hx. apply negb_true_iff in Hx.
    now rewrite Hx, (IH _ Hs), append_snoc.
Qed.

Lemma split_char_last (c : ascii) (cur a nm : string) :
  all_chars (is_not c) nm = true ->
  last (split_on_aux (String c "") 0 cur (a +:+ String c nm)) = Some nm.
Proof.
  intros Hnm. revert cur. induction a as [|x a IH]; intros cur.
  - change ("" +:+ String c nm) with (String c nm).
    rewrite split_char_step, Ascii.eqb_refl, (split_char_free c "" nm Hnm). reflexivity.
  - rewrite append_cons, split_char_step. destruct (Ascii.eqb c x); [|apply IH].
    rewrite last_cons, IH. reflexivity.
Qed.

Lemma upto_app (c : ascii) (a b : string) : upto c (a +:+ String c b) = upto c a.
Proof.
  induction a as [|x a IH].
  - change ("" +:+ String c b) with (String c b). cbn. now rewrite Ascii.eqb_refl.
  - rewrite append_cons. cbn. now rewrite IH.
Qed.

Lemma upto_free (c : ascii) (a : string) : all_chars (is_not c) a = true -> upto c a = a.
Proof.
  induction a as [|x a IH]; [reflexivity|]. cbn. intros H. apply andb_prop in H as [Hx Ha].
  unfold is_not in Hx. rewrite Ascii.eqb_sym in Hx. apply negb_true_iff in Hx.
  now rewrite Hx, (IH Ha).
Qed.

(** *** Splitting on the two colons *)

Lemma split_colons_step (x : ascii) (cur s : string) :
  split_on_aux "::" 0 cur (String x s)
  = match strip_prefix "::" (String x s) with
    | Some rest => cur :: split_on_aux "::" 0 "" rest
    | None => split_on_aux "::" 0 (cur +:+ String x "") s
    end.
Proof.
  cbn [split_on_aux String.length Nat.sub].
  destruct (strip_prefix "::" (String x s)) as [rest|] eqn:H; [|reflexivity].
  apply strip_prefix_Some in H. change ("::" +:+ rest) with (String ":" (String ":" rest)) in H.
  inversion H; subst. reflexivity.
Qed.

(** Up to the first colon, the first piece reads as the text itself does. *)
Lemma split_colons_head (cur s p : string) (rest : list string) :
  split_on_aux "::" 0 cur s = p :: rest -> upto ":" p = upto ":" (cur +:+ s).
Proof.
  revert cur. induction s as [|x s IH]; intros cur.
  - cbn. intros H. inversion H. now rewrite append_nil_r.
  - rewrite split_colons_step.
    destruct (strip_prefix "::" (String x s)) as [t|] eqn:Hx.
    + intros H. inversion H; subst. apply strip_prefix_Some in Hx.
      change ("::" +:+ t) with (String ":" (String ":" t)) in Hx. rewrite Hx.
      now rewrite upto_app.
    + intros H. rewrite (IH _ H). now rewrite append_snoc.
Qed.

Lemma split_colons_absent (cur s : string) :
  occurs "::" s = false -> split_on_aux "::" 0 cur s = [cur +:+ s].
Proof.
  revert cur. induction s as [|x s IH]; intros cur H.
  - cbn. now rewrite append_nil_r.
  - rewrite split_colons_step. cbn [occurs] in H.
    destruct (strip_prefix "::" (String x s)); [discriminate|].
    now rewrite (IH _ H), append_snoc.
Qed.

Lemma split_colons_present (cur s : string) :
  occurs "::" s = true -> exists a b rest, split_on_aux "::" 0 cur s = a :: b :: rest.
Proof.
  revert cur. induction s as [|x s IH]; intros cur H; [discriminate|].
  rewrite split_colons_step. cbn [occurs] in H.
  destruct (strip_prefix "::" (String x s)) as [t|].
  - destruct (split_on_aux "::" 0 "" t) as [|b rest] eqn:Ht.
    + now apply split_on_aux_nonempty in Ht.
    + now exists cur, b, rest.
  - now apply IH.
Qed.

(** The pieces, when the first two colons come right after [pre]. *)
Lemma split_colons_first (cur pre after : string) :
  occurs "::" (pre +:+ ":") = false ->
  split_on_aux "::" 0 cur (pre +:+ "::" +:+ after)
  = (cur +:+ pre) :: split_on_aux "::" 0 "" after.
Proof.
  revert cur. induction pre as [|x pre IH]; intros cur H.
  - change ("" +:+ "::" +:+ after) with (String ":" (String ":" after)).
    rewrite split_colons_step. cbn. now rewrite append_nil_r.
  - rewrite append_cons, split_colons_step.
    rewrite append_cons in H. cbn [occurs] in H.
    destruct (strip_prefix "::" (String x (pre +:+ ":"))) eqn:Hx; [discriminate|].
    assert (Hnone : strip_prefix "::" (String x (pre +:+ "::" +:+ after)) = None).
    { cbn [strip_prefix] in Hx |- *. destruct (Ascii.eqb ":" x); [|reflexivity].
      destruct pre as [|y pre]; [discriminate|].
      rewrite append_cons in Hx |- *. now destruct (Ascii.eqb ":" y). }
    now rewrite Hnone, (IH _ H), append_snoc.
Qed.

(** X15. The account of the first cell.  For a role that reads
    [pre::acct:kind/nm], where the first two colons in a row are those
    after [pre], [acct] has no colon and [nm] no slash, and with both
    variables of the server in the environment, the cell returns [acct] as
    the account and the two variables as they are, and prints six lines:
    the name [nm] after the last slash of the role, the bucket, the
    account, the region and the two variables.  Nothing else changes. *)
Theorem first_cell_reads_the_account (sess : Session)
    (pre acct kind nm uri secret : string) (w : World) :
  role sess = pre +:+ "::" +:+ acct +:+ ":" +:+ kind +:+ "/" +:+ nm ->
  occurs "::" (pre +:+ ":") = false ->
  all_chars (is_not ":") acct = true ->
  all_chars (is_not "/") nm = true ->
  environ w !! "MLFLOWSERVER" = Some uri ->
  environ w !! "MLFLOW_SECRET_NAME" = Some secret ->
  first_cell sess w
  = (Ok {| account := acct; tracking_uri := uri; mlflow_secret_name := secret |},
     printed [ ("SageMaker role: {}", [AStr nm]);
               ("bucket: {}", [AStr (bucket sess)]);
               ("Account: {}", [AStr acct]);
               ("Using AWS Region: {}", [AStr (region sess)]);
               ("MLflow server URI: {}", [AStr uri]);
               ("MLFLOW_SECRET_NAME: {}", [AStr secret]) ] w).
Proof.
  intros Hrole Hpre Hacct Hnm Huri Hsecret.
  unfold first_cell, bind, lift, getenv, item, last_item, split_on.
  assert (Hlast : last (split_on_aux "/" 0 "" (role sess)) = Some nm).
  { rewrite Hrole.
    replace (pre +:+ "::" +:+ acct +:+ ":" +:+ kind +:+ "/" +:+ nm)
      with ((pre +:+ "::" +:+ acct +:+ ":" +:+ kind) +:+ String "/" nm)
      by (now rewrite !append_assoc).
    now apply split_char_last. }
  rewrite Hlast, Hrole, (split_colons_first "" pre _ Hpre).
  destruct (split_on_aux "::" 0 "" (acct +:+ ":" +:+ kind +:+ "/" +:+ nm))
    as [|piece rest] eqn:Hpiece; [now apply split_on_aux_nonempty in Hpiece|].
  cbn [lookup list_lookup].
  pose proof (split_char_head ":" "" piece) as Hhead.
  rewrite (split_colons_head _ _ _ _ Hpiece) in Hhead.
  change ("" +:+ acct +:+ ":" +:+ kind +:+ "/" +:+ nm)
    with (acct +:+ String ":" (kind +:+ "/" +:+ nm)) in Hhead.
  rewrite upto_app, (upto_free _ _ Hacct) in Hhead.
  change ("" +:+ acct) with acct in Hhead.
  destruct (split_on_aux ":" 0 "" piece) as [|acct' others]; [discriminate|].
  cbn in Hhead. inversion Hhead; subst acct'. cbn [lookup list_lookup].
  rewrite Huri, Hsecret. unfold print, ret, printed. cbn.
  now rewrite <- !app_assoc.
Qed.

Lemma first_cell_reads_the_account_witness :
  first_cell example_session
    {| environ := <["MLFLOWSERVER" := "http://mlflow.internal"]>
                    (<["MLFLOW_SECRET_NAME" := "mlflow-secret"]> ∅);
       secretsmanager := ∅; server := example_server; endpoints := ∅;
       disk := ∅; s3 := ∅; stdout := [] |}
  = (Ok {| account := "123456789012"; tracking_uri := "http://mlflow.internal";
           mlflow_secret_name := "mlflow-secret" |},
     {| environ := <["MLFLOWSERVER" := "http://mlflow.internal"]>
                     (<["MLFLOW_SECRET_NAME" := "mlflow-secret"]> ∅);
        secretsmanager := ∅; server := example_server; endpoints := ∅;
        disk := ∅; s3 := ∅;
        stdout := [ ("SageMaker role: {}", [AStr "sagemaker-execution-role"]);
                    ("bucket: {}", [AStr (bucket example_session)]);
                    ("Account: {}", [AStr "123456789012"]);
                    ("Using AWS Region: {}", [AStr (region example_session)]);
                    ("MLflow server URI: {}", [AStr "http://mlflow.internal"]);
                    ("MLFLOW_SECRET_NAME: {}", [AStr "mlflow-secret"]) ] |}).
Proof.
  apply (first_cell_reads_the_account example_session
           "arn:aws:iam" "123456789012" "role" "sagemaker-execution-role").
  - reflexivity.
  - reflexivity.
  - reflexivity.
  - reflexivity.
  - reflexivity.
  - reflexivity.
Defined.

(** X16. The four ways the first cell can end.  Either the role has two
    colons in a row and both variables are in the environment, and the
    cell returns them as they are and prints six lines; or the role has no
    two colons in a row, and the cell fails with an index error; or the
    first variable is missing, or the second is, and the cell fails with a
    key error that names the missing variable.  A failure leaves the state
    as it was: nothing is printed before the account and both variables
    are read. *)
Theorem first_cell_outcomes (sess : Session) (w : World) :
  (exists g lines,
      first_cell sess w = (Ok g, printed lines w)
      /\ List.length lines = 6
      /\ occurs "::" (role sess) = true
      /\ environ w !! "MLFLOWSERVER" = Some (tracking_uri g)
      /\ environ w !! "MLFLOW_SECRET_NAME" = Some (mlflow_secret_name g))
  \/ (first_cell sess w = (Raise IndexError, w)
      /\ occurs "::" (role sess) = false)
  \/ (first_cell sess w = (Raise (KeyError "MLFLOWSERVER"), w)
      /\ occurs "::" (role sess) = true
      /\ environ w !! "MLFLOWSERVER" = None)
  \/ (first_cell sess w = (Raise (KeyError "MLFLOW_SECRET_NAME"), w)
      /\ occurs "::" (role sess) = true
      /\ is_Some (environ w !! "MLFLOWSERVER")
      /\ environ w !! "MLFLOW_SECRET_NAME" = None).
Proof.
  unfold first_cell, bind, lift, getenv, item, last_item, split_on.
  destruct (occurs "::" (role sess)) eqn:Hocc.
  - destruct (split_colons_present "" _ Hocc) as (a & b & rest & ->).
    cbn [lookup list_lookup].
    destruct (split_on_aux ":" 0 "" b) as [|acct others] eqn:Hb;
      [now apply split_on_aux_nonempty in Hb|].
    cbn [lookup list_lookup].
    destruct (environ w !! "MLFLOWSERVER") as [uri|] eqn:Huri.
    + destruct (environ w !! "MLFLOW_SECRET_NAME") as [secret|] eqn:Hsecret.
      * left.
        destruct (last (split_on_aux "/" 0 "" (role sess))) as [nm|] eqn:Hnm.
        -- eexists _, [_; _; _; _; _; _].
           split; [unfold print, ret, printed; cbn; now rewrite <- !app_assoc|].
           now repeat split.
        -- apply last_None in Hnm. now apply split_on_aux_nonempty in Hnm.
      * right; right; right. repeat split. now exists uri.
    + right; right; left. now repeat split.
  - right; left. now rewrite (split_colons_absent "" _ Hocc).
Qed.

End FirstCell.
